(** * SolarMap: energy calculator, coordinate cache and request handlers

    A shallow embedding of the backend of SolarMap:
    - [utils/energyCalculator.js]  (calculateSolarEnergy, calculateWindEnergy)
    - [services/databaseService.js] (the JSON file store)
    - [utils/helpers.js]           (validateCoordinates)
    - [controllers/energyController.js] (getEnergyData, calculateEnergy)

    JavaScript numbers are IEEE 754 binary64 values; they are modelled with
    the Standard Library's [spec_float] at precision 53 and maximal exponent
    1024, whose operations are plain functions over [Z], so every
    computation below runs inside the logic.  Objects used as dictionaries
    are finite maps, the store file is explicit state. *)

From Stdlib Require Import ZArith Lia Bool Ascii String.
From Stdlib Require Import Floats.SpecFloat.
From stdpp Require Import base option list gmap strings fin_maps.

(** ** JavaScript numbers *)

Module JsNumber.

Definition prec : Z := 53.
Definition emax : Z := 1024.

Definition number : Type := spec_float.

Definition NaN : number := S754_nan.

(** An integer literal; every integer literal of the sources is below
    2^53 and therefore exact. *)
Definition of_Z (z : Z) : number := binary_normalize prec emax z 0 false.

(** The binary64 value nearest to the fraction [n / d] (ties to even),
    with sign [s]: what the parser yields for a decimal literal or for
    the decimal string printed by [toFixed]. *)
Definition nearest (s : bool) (n d : positive) : number :=
  let '(mz, ez, lz) := SFdiv_core_binary prec emax (Zpos n) 0 (Zpos d) 0 in
  binary_round_aux prec emax s mz ez lz.

(** The decimal literal [n / 10^k], for instance [dec 1225 3] for 1.225. *)
Definition dec (n : Z) (k : nat) : number :=
  match n with
  | Z0 => S754_zero false
  | Zpos p => nearest false p (Z.to_pos (10 ^ Z.of_nat k))
  | Zneg p => nearest true p (Z.to_pos (10 ^ Z.of_nat k))
  end.

Definition add : number -> number -> number := SFadd prec emax.
Definition sub : number -> number -> number := SFsub prec emax.
Definition mul : number -> number -> number := SFmul prec emax.
Definition div : number -> number -> number := SFdiv prec emax.
Definition abs : number -> number := SFabs.
Definition ltb : number -> number -> bool := SFltb.
Definition leb : number -> number -> bool := SFleb.
Definition gtb (x y : number) : bool := ltb y x.

(** [x !== y] on two numbers. *)
Definition strict_neq (x y : number) : bool := negb (SFeqb x y).

Definition isNaN (x : number) : bool :=
  match x with S754_nan => true | _ => false end.

Definition is_finite (x : number) : bool :=
  match x with S754_zero _ | S754_finite _ _ _ => true | _ => false end.

(** ToBoolean on a number: 0, -0 and NaN are falsy. *)
Definition truthy (x : number) : bool :=
  match x with S754_zero _ | S754_nan => false | _ => true end.

(** The integer [n] for which [n / 100] is closest to [m * 2^e], the
    larger one on a tie (step 10.a of Number.prototype.toFixed). *)
Definition hundredths (m : positive) (e : Z) : Z :=
  if (0 <=? e)%Z then (Zpos m * 2 ^ e * 100)%Z
  else ((200 * Zpos m + 2 ^ (- e)) / 2 ^ (1 - e))%Z.

(** [10^21 <= m * 2^e], the magnitude from which [toFixed] prints the
    number as [String] does. *)
Definition at_least_1e21 (m : positive) (e : Z) : bool :=
  if (0 <=? e)%Z then (10 ^ 21 <=? Zpos m * 2 ^ e)%Z
  else (10 ^ 21 * 2 ^ (- e) <=? Zpos m)%Z.

(** [+x.toFixed(2)]: the number read back from the two-decimal string.
    NaN and the infinities print as themselves; a magnitude of 1e21 or
    more is printed by [String] and read back unchanged; otherwise the
    string is the sign and [n / 100] in decimal, and unary plus rounds
    that fraction to the nearest number.  The sign is dropped for -0
    and kept for a negative value that rounds to "-0.00". *)
Definition toFixed2 (x : number) : number :=
  match x with
  | S754_nan => S754_nan
  | S754_infinity s => S754_infinity s
  | S754_zero _ => S754_zero false
  | S754_finite s m e =>
      if at_least_1e21 m e then x
      else match hundredths m e with
           | Zpos n => nearest s n 100
           | _ => S754_zero s
           end
  end.

End JsNumber.

Import JsNumber.

Declare Scope js_scope.
Delimit Scope js_scope with js.
Bind Scope js_scope with number.
Infix "+" := add : js_scope.
Infix "-" := sub : js_scope.
Infix "*" := mul : js_scope.
Infix "/" := div : js_scope.
Infix "<?" := ltb : js_scope.
Infix ">?" := gtb : js_scope.

(** ** Exceptions and completions *)

Inductive exn : Type :=
  | TypeError (msg : string)
  | Error (msg : string).

Inductive completion (A : Type) : Type :=
  | Return (a : A)
  | Throw (e : exn).
Arguments Return {A} & a.
Arguments Throw {A} e.

Definition bind {A B : Type} (c : completion A) (k : A -> completion B) : completion B :=
  match c with
  | Return a => k a
  | Throw e => Throw e
  end.

Notation "'let*' x ':=' c 'in' k" := (bind c (fun x => k))
  (at level 10, x pattern, c at level 100, k at level 200).

(** ** utils/energyCalculator.js *)

Module EnergyCalculator.

Definition DAYS_PER_MONTH : number := of_Z 30.
Definition HOURS_PER_MONTH : number := (of_Z 24 * of_Z 30)%js.
Definition AIR_DENSITY : number := dec 1225 3.

Definition is_digit (c : ascii) : bool :=
  let n := nat_of_ascii c in (48 <=? n)%nat && (n <=? 57)%nat.

Fixpoint all_digits (s : string) : bool :=
  match s with
  | EmptyString => true
  | String c s' => is_digit c && all_digits s'
  end.

(** [MONTH_KEY.test(key)] for [/^\d{6}$/]: exactly six ASCII digits. *)
Definition MONTH_KEY_test (key : string) : bool :=
  (String.length key =? 6)%nat && all_digits key.

(** [s.endsWith(suffix)]. *)
Definition endsWith (s suffix : string) : bool :=
  let n := String.length s in
  let k := String.length suffix in
  (k <=? n)%nat && String.eqb (String.substring (n - k) k s) suffix.

(** [s.slice(i, j)] for [0 <= i <= j]. *)
Definition slice (s : string) (i j : nat) : string :=
  String.substring i (j - i) s.

(** The [data] argument of the calculators: a JavaScript value that is
    either missing or an object whose own enumerable properties, in the
    order [Object.keys] lists them, hold numbers. *)
Inductive samples : Type :=
  | SUndefined
  | SNull
  | SObject (props : list (string * number)).

(** [Object.keys(data)], each key paired with [data[key]]; it throws on
    [undefined] and [null]. *)
Definition Object_entries (data : samples) : completion (list (string * number)) :=
  match data with
  | SUndefined | SNull => Throw (TypeError "Cannot convert undefined or null to object")
  | SObject props => Return props
  end.

(** A year's record, [{ annual, "01", "02", ... }], and the collection of
    them keyed by year. *)
Abbreviation year_record := (gmap string number).
Abbreviation energy_result := (gmap string (gmap string number)).

(** Lines 30-38 and 70-78: create the year's record on first use, store
    the month, add to the annual total and round it again. *)
Definition accumulate (result : energy_result) (year month : string)
    (energy : number) : energy_result :=
  let result :=
    match result !! year with
    | Some _ => result
    | None => <[year := {[ "annual" := of_Z 0 ]}]> result
    end in
  let rec : year_record := default ∅ (result !! year) in
  let rec := <[month := energy]> rec in
  let annual := (default NaN (rec !! "annual") + energy)%js in
  let rec := <["annual" := annual]> rec in
  let rec := <["annual" := toFixed2 (default NaN (rec !! "annual"))]> rec in
  <[year := rec]> result.

(** The guard of line 20 / line 57. *)
Definition skipped (key : string) : bool :=
  negb (MONTH_KEY_test key) || endsWith key "13".

Definition solar_month (area efficiency irradiance : number) : number :=
  toFixed2 (irradiance * area * efficiency * DAYS_PER_MONTH)%js.

(** One turn of the loop, shared by the two calculators, which differ
    only in the monthly formula [energy_of]. *)
Definition step (energy_of : number -> number)
    (result : energy_result) (kv : string * number) : energy_result :=
  let '(key, value) := kv in
  if skipped key then result
  else accumulate result (slice key 0 4) (slice key 4 6) (energy_of value).

Definition solar_step (area efficiency : number) :=
  step (solar_month area efficiency).

(** Parameters left out by the caller take their defaults. *)
Definition calculateSolarEnergy (data : samples)
    (area efficiency : option number) : completion energy_result :=
  let area := default (of_Z 1) area in
  let efficiency := default (dec 2 1) efficiency in
  let* props := Object_entries data in
  Return (foldl (solar_step area efficiency) ∅ props).

Section Wind.
(** [Math.pow] is implementation-approximated; it is a parameter. *)
Variable Math_pow : number -> number -> number.

Definition wind_month (area efficiency v : number) : number :=
  let power := (dec 5 1 * AIR_DENSITY * area * Math_pow v (of_Z 3) * efficiency)%js in
  toFixed2 (power * HOURS_PER_MONTH / of_Z 1000000)%js.

Definition wind_step (area efficiency : number) :=
  step (wind_month area efficiency).

Definition calculateWindEnergy (data : samples)
    (area efficiency : option number) : completion energy_result :=
  let area := default (dec 125664 2) area in
  let efficiency := default (dec 4 1) efficiency in
  let* props := Object_entries data in
  Return (foldl (wind_step area efficiency) ∅ props).
End Wind.

(** A [Math.pow] for exponent 3 by repeated multiplication, exact
    whenever the cube is representable. *)
Definition pow_by_mul (x y : number) : number := (x * x * x)%js.

End EnergyCalculator.

Import EnergyCalculator.

(** ** Values carried by requests and by stored entries *)

(** The primitive values a JSON document can hold in a coordinate or a
    parameter field.  Arrays and objects in those fields are outside the
    model. *)
Inductive jsval : Type :=
  | VUndefined
  | VNull
  | VBool (b : bool)
  | VNumber (x : number)
  | VString (s : string).

(** ToBoolean: what [!v] tests. *)
Definition ToBoolean (v : jsval) : bool :=
  match v with
  | VUndefined | VNull => false
  | VBool b => b
  | VNumber x => truthy x
  | VString s => negb (String.eqb s "")
  end.

(** [v !== x] for a number [x]: values of another type always differ. *)
Definition strict_neq_number (v : jsval) (x : number) : bool :=
  match v with
  | VNumber y => strict_neq y x
  | _ => true
  end.

(** A destructuring default, [{ field = d } = obj]: it replaces only
    [undefined]. *)
Definition or_default (d : jsval) (v : jsval) : jsval :=
  match v with VUndefined => d | _ => v end.

(** ** What JSON keeps of a value *)

(** [JSON.parse(JSON.stringify(x))] for a number [x]: a finite number
    is written in a form that reads back as the same double, -0 is
    written [0], and NaN and the infinities are written [null]. *)
Definition JSON_number (x : number) : jsval :=
  match x with
  | S754_zero _ => VNumber (S754_zero false)
  | S754_finite _ _ _ => VNumber x
  | S754_infinity _ | S754_nan => VNull
  end.

(** The same for the value of a property.  A property that holds
    [undefined] is left out of the text, and reads back as [undefined]. *)
Definition JSON_value (v : jsval) : jsval :=
  match v with
  | VNumber x => JSON_number x
  | _ => v
  end.

(** A result as an entry holds it and as a response carries it: the
    object a calculator returned, or what was read back for it from the
    store, where a value can be [null]. *)
Abbreviation json_result := (gmap string (gmap string jsval)).

(** The object a calculator returned, as such a result. *)
Definition result_values (r : energy_result) : json_result :=
  (fun year : year_record => VNumber <$> year) <$> r.

Definition JSON_result (r : json_result) : json_result :=
  (fun year : gmap string jsval => JSON_value <$> year) <$> r.

(** A raw sample is a number, and its only readers are the products and
    the power of the calculators, which read [null] as
    [ToNumber(null)], that is 0: the sample read back for NaN or an
    infinity, written [null], is held as that 0. *)
Definition JSON_sample (x : number) : number :=
  match x with
  | S754_finite _ _ _ => x
  | _ => S754_zero false
  end.

Definition JSON_samples (s : samples) : samples :=
  match s with
  | SObject props => SObject (prod_map id JSON_sample <$> props)
  | _ => s
  end.

(** What the upstream fetcher returns. *)
Record nasa_metadata : Type := {
  meta_latitude : jsval;
  meta_longitude : jsval;
  elevation : jsval
}.

Record nasa_data : Type := {
  nasa_solar : samples;
  nasa_wind : samples;
  metadata : nasa_metadata
}.

(** A cache entry, as the controllers build it.  [rawData] is absent in
    an entry written without it. *)
Record entry : Type := {
  latitude : jsval;
  longitude : jsval;
  solar : json_result;
  wind : json_result;
  rawData : option nasa_data;
  timestamp : string
}.

Definition JSON_nasa_data (raw : nasa_data) : nasa_data :=
  {| nasa_solar := JSON_samples (nasa_solar raw);
     nasa_wind := JSON_samples (nasa_wind raw);
     metadata :=
       {| meta_latitude := JSON_value (meta_latitude (metadata raw));
          meta_longitude := JSON_value (meta_longitude (metadata raw));
          elevation := JSON_value (elevation (metadata raw)) |} |}.

(** [JSON.parse(JSON.stringify(e))]: the entry read back from the text
    written for [e]. *)
Definition JSON_roundtrip (e : entry) : entry :=
  {| latitude := JSON_value (latitude e);
     longitude := JSON_value (longitude e);
     solar := JSON_result (solar e);
     wind := JSON_result (wind e);
     rawData := JSON_nasa_data <$> rawData e;
     timestamp := timestamp e |}.

(** ** The world a request runs in *)

(** A value that a JSON text can hold and that is not an array of entry
    objects: [null], a boolean, a number or a string; an object, [{}]
    for one; an array of entry objects with [null] among them, as
    [before], [null], [after].  Arrays with elements of another kind are
    outside the model. *)
Inductive foreign : Type :=
  | Scalar (v : jsval)
  | AnObject
  | ArrayWithNull (before : list entry) (after : list (option entry)).

(** The text of the store file.  [Malformed] is a text that does not
    parse as JSON.  [Document db] is the text that
    [JSON.stringify(db, null, 2)] prints for the array [db]; the text
    does not tell NaN from [null] nor -0 from 0, so that parsing it gives
    [JSON_roundtrip] of each entry and not the entry itself.
    [Foreign f] is a text that parses to [f]. *)
Inductive file_text : Type :=
  | Malformed
  | Document (db : list entry)
  | Foreign (f : foreign).

(** What [JSON.parse] returns for the text, the value of the variable
    [database] of the store functions. *)
Inductive database : Type :=
  | Entries (db : list entry)
  | NotEntries (f : foreign).

Coercion Entries : list >-> database.

Inductive content : Type :=
  | NoDirectory
  | NoFile
  | File (text : file_text).

(** The data directory and [DB_FILE], and whether reading and writing
    them succeeds. *)
Record disk : Type := {
  stored : content;
  readable : bool;
  writable : bool
}.

(** What a handler did to the outside, most recent first: [readDatabase]
    records [Consulted], [writeDatabase] records [Persisted] with the
    array it is asked to write, [fetchNASAData] records [Fetched] with
    the coordinate it asks for. *)
Inductive event : Type :=
  | Consulted
  | Persisted (db : list entry)
  | Fetched (lat lon : jsval).

Record world : Type := {
  fs : disk;
  log : list event
}.

(** Computations that read and change the world and may throw. *)
Definition M (A : Type) : Type := world -> completion A * world.

Definition ret {A : Type} (a : A) : M A := fun w => (Return a, w).

Definition throw {A : Type} (e : exn) : M A := fun w => (Throw e, w).

Definition lift {A : Type} (c : completion A) : M A := fun w => (c, w).

Definition mbind {A B : Type} (m : M A) (k : A -> M B) : M B :=
  fun w =>
    match m w with
    | (Return a, w') => k a w'
    | (Throw e, w') => (Throw e, w')
    end.

(** [try { m } catch (error) { h error }]. *)
Definition try_catch {A : Type} (m : M A) (h : exn -> M A) : M A :=
  fun w =>
    match m w with
    | (Return a, w') => (Return a, w')
    | (Throw e, w') => h e w'
    end.

Definition emit (ev : event) : M unit :=
  fun w => (Return tt, {| fs := fs w; log := ev :: log w |}).

Definition get_disk : M disk := fun w => (Return (fs w), w).

Definition set_stored (c : content) : M unit :=
  fun w => (Return tt,
            {| fs := {| stored := c; readable := readable (fs w);
                        writable := writable (fs w) |};
               log := log w |}).

Notation "x <- m ;; k" := (mbind m (fun x => k))
  (at level 100, m at level 99, k at level 200, right associativity).
Notation "m ;;; k" := (mbind m (fun _ => k))
  (at level 100, k at level 200, right associativity).

(** ** services/databaseService.js *)

Module DatabaseService.

Section Store.
(** ToNumber on a string, the parser behind the arithmetic coercion. *)
Variable StringToNumber : string -> number.

(** ToNumber, applied by the binary [-] and [*]. *)
Definition ToNumber (v : jsval) : number :=
  match v with
  | VUndefined => NaN
  | VNull => of_Z 0
  | VBool b => if b then of_Z 1 else of_Z 0
  | VNumber x => x
  | VString s => StringToNumber s
  end.

(** [fs.mkdirSync(dbDir, { recursive: true })]. *)
Definition mkdirSync : M unit :=
  d <- get_disk ;;
  if writable d then
    match stored d with
    | NoDirectory => set_stored NoFile
    | _ => ret tt
    end
  else throw (Error "EACCES: permission denied, mkdir").

(** [JSON.stringify(data, null, 2)]. *)
Definition JSON_stringify (data : list entry) : file_text := Document data.

(** [fs.writeFileSync(DB_FILE, text)]. *)
Definition writeFileSync (text : file_text) : M unit :=
  d <- get_disk ;;
  match stored d with
  | NoDirectory => throw (Error "ENOENT: no such file or directory, open")
  | _ =>
      if writable d then set_stored (File text)
      else throw (Error "EACCES: permission denied, open")
  end.

(** [fs.readFileSync(DB_FILE, 'utf8')]. *)
Definition readFileSync : M file_text :=
  d <- get_disk ;;
  match stored d with
  | File text =>
      if readable d then ret text
      else throw (Error "EACCES: permission denied, open")
  | _ => throw (Error "ENOENT: no such file or directory, open")
  end.

Definition JSON_parse (text : file_text) : completion database :=
  match text with
  | Malformed => Throw (Error "SyntaxError: Unexpected token in JSON")
  | Document db => Return (Entries (JSON_roundtrip <$> db))
  | Foreign f => Return (NotEntries f)
  end.

(** [fs.existsSync(dbDir)] and [fs.existsSync(DB_FILE)]. *)
Definition existsSync_dbDir : M bool :=
  d <- get_disk ;;
  ret (match stored d with NoDirectory => false | _ => true end).

Definition existsSync_DB_FILE : M bool :=
  d <- get_disk ;;
  ret (match stored d with File _ => true | _ => false end).

Definition initializeDatabase : M unit :=
  dir_exists <- existsSync_dbDir ;;
  (if negb dir_exists then mkdirSync else ret tt) ;;;
  file_exists <- existsSync_DB_FILE ;;
  if negb file_exists then writeFileSync (JSON_stringify []) else ret tt.

Definition readDatabase : M database :=
  emit Consulted ;;;
  try_catch
    (initializeDatabase ;;;
     data <- readFileSync ;;
     lift (JSON_parse data))
    (fun _ => ret (Entries [])).

Definition writeDatabase (data : list entry) : M unit :=
  emit (Persisted data) ;;;
  try_catch (writeFileSync (JSON_stringify data)) (fun error => throw error).

(** The predicate of [find] and of [filter]:
    [Math.abs(entry.latitude - latitude) < tolerance &&
     Math.abs(entry.longitude - longitude) < tolerance]. *)
Definition within (tolerance : number) (lat lon : jsval) (e : entry) : bool :=
  (abs (ToNumber (latitude e) - ToNumber lat) <? tolerance)%js
  && (abs (ToNumber (longitude e) - ToNumber lon) <? tolerance)%js.

(** [database.find(p)] and [database.filter(p)] for a predicate that
    reads [entry.latitude] and [entry.longitude].  A value that is not
    an array has no such method, and the predicate cannot read a
    property of [null]: [find] stops at the first match and throws if
    it reaches the [null] before, [filter] visits every element. *)
Definition database_find (p : entry -> bool) (database : database)
    : completion (option entry) :=
  match database with
  | Entries db => Return (List.find p db)
  | NotEntries (Scalar VNull) | NotEntries (Scalar VUndefined) =>
      Throw (TypeError "Cannot read properties of null (reading 'find')")
  | NotEntries (Scalar _) | NotEntries AnObject =>
      Throw (TypeError "database.find is not a function")
  | NotEntries (ArrayWithNull before _) =>
      match List.find p before with
      | Some e => Return (Some e)
      | None => Throw (TypeError "Cannot read properties of null (reading 'latitude')")
      end
  end.

Definition database_filter (p : entry -> bool) (database : database)
    : completion (list entry) :=
  match database with
  | Entries db => Return (List.filter p db)
  | NotEntries (Scalar VNull) | NotEntries (Scalar VUndefined) =>
      Throw (TypeError "Cannot read properties of null (reading 'filter')")
  | NotEntries (Scalar _) | NotEntries AnObject =>
      Throw (TypeError "database.filter is not a function")
  | NotEntries (ArrayWithNull _ _) =>
      Throw (TypeError "Cannot read properties of null (reading 'latitude')")
  end.

Definition findByCoordinates (lat lon : jsval) (tolerance : option number)
    : M (option entry) :=
  let tolerance := default (dec 1 2) tolerance in
  database <- readDatabase ;;
  lift (database_find (within tolerance lat lon) database).

Definition saveEnergyData (energyData : entry) : M entry :=
  database <- readDatabase ;;
  filteredDatabase <-
    lift (database_filter
            (fun e => negb (within (dec 1 2) (latitude energyData) (longitude energyData) e))
            database) ;;
  let filteredDatabase := filteredDatabase ++ [energyData] in
  writeDatabase filteredDatabase ;;;
  ret energyData.

Definition getAllData : M database := readDatabase.

End Store.

End DatabaseService.

Import DatabaseService.

(** ** utils/helpers.js *)

Module Helpers.

Inductive validation : Type :=
  | Invalid (error : string)
  | Valid (latitude longitude : number).

Section Validate.
Variable parseFloat : string -> number.

Definition validateCoordinates (lat lon : string) : validation :=
  let latitude := parseFloat lat in
  let longitude := parseFloat lon in
  if isNaN latitude || isNaN longitude then
    Invalid "Invalid coordinate format"
  else if (latitude <? of_Z (-90))%js || (latitude >? of_Z 90)%js then
    Invalid "Latitude must be between -90 and 90"
  else if (longitude <? of_Z (-180))%js || (longitude >? of_Z 180)%js then
    Invalid "Longitude must be between -180 and 180"
  else Valid latitude longitude.
End Validate.

End Helpers.

Import Helpers.

(** ** controllers/energyController.js *)

Module EnergyController.

(** The JSON body of a response; absent fields are [None]. *)
Record energy_body : Type := {
  body_latitude : jsval;
  body_longitude : jsval;
  body_solar : option json_result;
  body_wind : option json_result;
  body_timestamp : option string;
  body_parameters : option (jsval * jsval * jsval)
}.

Inductive body : Type :=
  | ErrorBody (error : string)
  | EnergyBody (b : energy_body).

(** [res.status(status).json(json)]; [res.json] alone answers 200. *)
Record response : Type := {
  status : nat;
  json : body
}.

(** [req.body] of POST /api/calculate. *)
Record calculate_body : Type := {
  req_latitude : jsval;
  req_longitude : jsval;
  req_area : jsval;
  req_solarEfficiency : jsval;
  req_windEfficiency : jsval
}.

Section Handlers.
Variable StringToNumber : string -> number.
Variable parseFloat : string -> number.
Variable Math_pow : number -> number -> number.
(** The answer of the NASA POWER service for a coordinate, [None]
    when the request fails. *)
Variable nasa_api : jsval -> jsval -> option nasa_data.
(** [new Date().toISOString()]. *)
Variable now : string.

(** services/nasaService.js *)
Definition fetchNASAData (lat lon : jsval) : M nasa_data :=
  emit (Fetched lat lon) ;;;
  match nasa_api lat lon with
  | Some data => ret data
  | None => throw (Error "Failed to fetch data from NASA POWER API")
  end.

(** Lines 28-47 and 115-131: fetch, calculate with the default
    parameters, save. *)
Definition fetch_and_store (lat lon : jsval) : M entry :=
  nasaData <- fetchNASAData lat lon ;;
  solarEnergy <- lift (calculateSolarEnergy (nasa_solar nasaData) None None) ;;
  windEnergy <- lift (calculateWindEnergy Math_pow (nasa_wind nasaData) None None) ;;
  let energyData :=
    {| latitude := lat; longitude := lon;
       solar := result_values solarEnergy; wind := result_values windEnergy;
       rawData := Some nasaData; timestamp := now |} in
  saveEnergyData StringToNumber energyData ;;;
  ret energyData.

Definition internal_server_error : response :=
  {| status := 500; json := ErrorBody "Internal server error" |}.

Definition getEnergyData (type : string) (lat lon : string) : M response :=
  try_catch
    (match validateCoordinates parseFloat lat lon with
     | Invalid error => ret {| status := 400; json := ErrorBody error |}
     | Valid latitude longitude =>
         let latitude := VNumber latitude in
         let longitude := VNumber longitude in
         existingData <- findByCoordinates StringToNumber latitude longitude None ;;
         existingData <-
           match existingData with
           | Some e => ret e
           | None => fetch_and_store latitude longitude
           end ;;
         if String.eqb type "solar" then
           ret {| status := 200;
                  json := EnergyBody
                    {| body_latitude := latitude; body_longitude := longitude;
                       body_solar := Some (solar existingData); body_wind := None;
                       body_timestamp := Some (timestamp existingData);
                       body_parameters := None |} |}
         else if String.eqb type "wind" then
           ret {| status := 200;
                  json := EnergyBody
                    {| body_latitude := latitude; body_longitude := longitude;
                       body_solar := None; body_wind := Some (wind existingData);
                       body_timestamp := Some (timestamp existingData);
                       body_parameters := None |} |}
         else if String.eqb type "both" then
           ret {| status := 200;
                  json := EnergyBody
                    {| body_latitude := latitude; body_longitude := longitude;
                       body_solar := Some (solar existingData);
                       body_wind := Some (wind existingData);
                       body_timestamp := Some (timestamp existingData);
                       body_parameters := None |} |}
         else ret {| status := 400; json := ErrorBody "Invalid energy type" |}
     end)
    (fun _ => ret internal_server_error).

(** [rawData?.solar] and [rawData?.wind] are both truthy. *)
Definition has_raw (s : samples) : bool :=
  match s with SObject _ => true | _ => false end.

Definition calculateEnergy (req : calculate_body) : M response :=
  try_catch
    (let latitude := req_latitude req in
     let longitude := req_longitude req in
     let area := or_default (VNumber (of_Z 1)) (req_area req) in
     let solarEfficiency := or_default (VNumber (dec 2 1)) (req_solarEfficiency req) in
     let windEfficiency := or_default (VNumber (dec 4 1)) (req_windEfficiency req) in
     if negb (ToBoolean latitude) || negb (ToBoolean longitude) then
       ret {| status := 400; json := ErrorBody "Latitude and longitude are required" |}
     else
       energyData <- findByCoordinates StringToNumber latitude longitude None ;;
       energyData <-
         match energyData with
         | Some e =>
             match rawData e with
             | Some _ => ret e
             | None => fetch_and_store latitude longitude
             end
         | None => fetch_and_store latitude longitude
         end ;;
       match rawData energyData with
       | Some raw =>
           if negb (has_raw (nasa_solar raw)) || negb (has_raw (nasa_wind raw)) then
             ret {| status := 500; json := ErrorBody "Missing raw solar or wind data" |}
           else if strict_neq_number area (of_Z 1)
                   || strict_neq_number solarEfficiency (dec 2 1)
                   || strict_neq_number windEfficiency (dec 4 1) then
             customSolar <- lift (calculateSolarEnergy (nasa_solar raw)
                                    (Some (ToNumber StringToNumber area))
                                    (Some (ToNumber StringToNumber solarEfficiency))) ;;
             customWind <- lift (calculateWindEnergy Math_pow (nasa_wind raw)
                                   (Some (ToNumber StringToNumber area))
                                   (Some (ToNumber StringToNumber windEfficiency))) ;;
             ret {| status := 200;
                    json := EnergyBody
                      {| body_latitude := latitude; body_longitude := longitude;
                         body_solar := Some (result_values customSolar);
                         body_wind := Some (result_values customWind);
                         body_timestamp := None;
                         body_parameters :=
                           Some (area, solarEfficiency, windEfficiency) |} |}
           else
             ret {| status := 200;
                    json := EnergyBody
                      {| body_latitude := latitude; body_longitude := longitude;
                         body_solar := Some (solar energyData);
                         body_wind := Some (wind energyData);
                         body_timestamp := None; body_parameters := None |} |}
       | None =>
           ret {| status := 500; json := ErrorBody "Missing raw solar or wind data" |}
       end)
    (fun _ => ret internal_server_error).

End Handlers.

End EnergyController.

Import EnergyController.

(** ** Vocabulary of the statements about the calculator *)

(** The value stored for [month] of [year], if the call returned one. *)
Definition month_value (c : completion energy_result) (year month : string)
    : option number :=
  match c with
  | Return r => r !! year ≫= (fun rec : gmap string number => rec !! month)
  | Throw _ => None
  end.

(** The running total of a year while the loop runs: 0 before the
    year's record exists, its [annual] field afterwards. *)
Definition running (r : energy_result) (year : string) : number :=
  match r !! year with
  | None => of_Z 0
  | Some rec => default NaN (rec !! "annual")
  end.

Definition has_annual (r : energy_result) : Prop :=
  forall (year : string) (rec : gmap string number),
    r !! year = Some rec -> rec !! "annual" = Some (running r year).

(** Add one monthly value and round again. *)
Definition add_round (total energy : number) : number :=
  toFixed2 (total + energy)%js.

(** The monthly values of [year], one per processed key, in iteration
    order. *)
Definition year_months (energy_of : number -> number)
    (props : list (string * number)) (year : string) : list number :=
  map (fun kv => energy_of (snd kv))
    (List.filter
       (fun kv => negb (skipped (fst kv)) && String.eqb (slice (fst kv) 0 4) year)
       props).


(** The two calculators behind one name, to state what they share. *)
Inductive calculator : Type := Solar | Wind.

Definition calculate (Math_pow : number -> number -> number) (c : calculator)
    (data : samples) (area efficiency : option number) : completion energy_result :=
  match c with
  | Solar => calculateSolarEnergy data area efficiency
  | Wind => calculateWindEnergy Math_pow data area efficiency
  end.

(** The monthly formula of each calculator, defaults filled in. *)
Definition monthly (Math_pow : number -> number -> number) (c : calculator)
    (area efficiency : option number) : number -> number :=
  match c with
  | Solar => solar_month (default (of_Z 1) area) (default (dec 2 1) efficiency)
  | Wind => wind_month Math_pow (default (dec 125664 2) area) (default (dec 4 1) efficiency)
  end.

(** Five keys over two years, one of them the annual-average key. *)
Definition sample_months : list (string * number) :=
  [("201201", dec 4 0); ("201202", dec 3333 3); ("201213", dec 99 0);
   ("201203", dec 12 3); ("201301", dec 5 0)].

(** ** Vocabulary of the statements about the store *)

Section StoreVocabulary.
Variable StringToNumber : string -> number.

(** Two entries lie within 0.01 degrees of each other on both axes. *)
Definition near (a b : entry) : bool :=
  within StringToNumber (dec 1 2) (latitude b) (longitude b) a.

(** No two retained entries, at different positions, are near each
    other. *)
Definition store_invariant (db : list entry) : Prop :=
  forall (i j : nat) (a b : entry),
    i <> j -> db !! i = Some a -> db !! j = Some b -> near a b = false.

(** Both coordinates of an entry are finite numbers. *)
Definition finite_coordinates (e : entry) : Prop :=
  is_finite (ToNumber StringToNumber (latitude e)) = true
  /\ is_finite (ToNumber StringToNumber (longitude e)) = true.
End StoreVocabulary.

(** The ways reading the store can fail. *)
Inductive read_failure (d : disk) : Prop :=
  | missing_directory : stored d = NoDirectory -> read_failure d
  | missing_file : stored d = NoFile -> read_failure d
  | unreadable_file : readable d = false -> read_failure d
  | unparseable_file : stored d = File Malformed -> read_failure d.

(** What [readDatabase] returns on a disk, and the disk it leaves: a
    missing directory or file is created when the disk can be written. *)
Definition read_of (d : disk) : database :=
  match stored d with
  | File (Document db) => if readable d then Entries (JSON_roundtrip <$> db) else Entries []
  | File (Foreign f) => if readable d then NotEntries f else Entries []
  | _ => Entries []
  end.

(** The entries among them; none when what is read is not an array of
    entries. *)
Definition database_of (d : disk) : list entry :=
  match read_of d with
  | Entries db => db
  | NotEntries _ => []
  end.

(** What is read is an array of entries. *)
Definition reads_entries (d : disk) : bool :=
  match read_of d with
  | Entries _ => true
  | NotEntries _ => false
  end.

(** ** Vocabulary of the statements about JSON *)

(** A number that is written to the store and read back unchanged:
    finite and not -0. *)
Definition plain_number (x : number) : bool :=
  match x with
  | S754_zero s => negb s
  | S754_finite _ _ _ => true
  | _ => false
  end.

Definition plain_value (v : jsval) : bool :=
  match v with
  | VNumber x => plain_number x
  | _ => true
  end.

Definition plain_result (r : json_result) : Prop :=
  map_Forall
    (fun (_ : string) (rec : gmap string jsval) =>
       map_Forall (fun (_ : string) (v : jsval) => plain_value v = true) rec)
    r.

Definition plain_samples (s : samples) : Prop :=
  match s with
  | SObject props => List.Forall (fun kv => plain_number (snd kv) = true) props
  | _ => True
  end.

Definition plain_nasa_data (raw : nasa_data) : Prop :=
  plain_samples (nasa_solar raw) /\ plain_samples (nasa_wind raw)
  /\ plain_value (meta_latitude (metadata raw)) = true
  /\ plain_value (meta_longitude (metadata raw)) = true
  /\ plain_value (elevation (metadata raw)) = true.

(** Every number an entry holds is written and read back unchanged. *)
Definition plain_entry (e : entry) : Prop :=
  plain_value (latitude e) = true /\ plain_value (longitude e) = true
  /\ plain_result (solar e) /\ plain_result (wind e)
  /\ match rawData e with Some raw => plain_nasa_data raw | None => True end.

(** A coordinate whose number is the same before and after the store:
    anything but NaN and the infinities, which come back as [null] and
    then count as 0. *)
Definition kept_coordinate (v : jsval) : bool :=
  match v with
  | VNumber x => is_finite x
  | _ => true
  end.


(** The body [res.json] sends for a response: its JSON text, read. *)
Definition JSON_body (b : body) : body :=
  match b with
  | ErrorBody error => ErrorBody error
  | EnergyBody b =>
      EnergyBody
        {| body_latitude := JSON_value (body_latitude b);
           body_longitude := JSON_value (body_longitude b);
           body_solar := JSON_result <$> body_solar b;
           body_wind := JSON_result <$> body_wind b;
           body_timestamp := body_timestamp b;
           body_parameters :=
             (fun p : jsval * jsval * jsval =>
                (JSON_value p.1.1, JSON_value p.1.2, JSON_value p.2))
             <$> body_parameters b |}
  end.

Definition as_sent (r : response) : response :=
  {| status := status r; json := JSON_body (json r) |}.

Definition disk_after_read (d : disk) : disk :=
  match stored d with
  | NoDirectory | NoFile =>
      if writable d then
        {| stored := File (Document []); readable := readable d; writable := true |}
      else d
  | File _ => d
  end.

(** ** Sample worlds and entries *)

(** A string-to-number conversion for examples that hold no strings. *)
Definition no_strings (s : string) : number := NaN.

Definition sample_raw : nasa_data :=
  {| nasa_solar := SObject [("201201", dec 4 0); ("201213", dec 41 1)];
     nasa_wind := SObject [("201201", dec 5 0); ("201213", dec 52 1)];
     metadata := {| meta_latitude := VNumber (dec 4365 2);
                    meta_longitude := VNumber (dec (-7938) 2);
                    elevation := VUndefined |} |}.

Definition sample_entry (lat lon : number) (stamp : string) : entry :=
  {| latitude := VNumber lat; longitude := VNumber lon;
     solar := result_values {[ "2012" := {[ "01" := dec 24 0; "annual" := dec 24 0 ]} ]};
     wind := result_values {[ "2012" := {[ "01" := dec 2771 2; "annual" := dec 2771 2 ]} ]};
     rawData := Some sample_raw; timestamp := stamp |}.

Definition toronto : entry :=
  sample_entry (dec 4365 2) (dec (-7938) 2) "2025-07-08T10:30:00.000Z".
Definition toronto_again : entry :=
  sample_entry (dec 43655 3) (dec (-79385) 3) "2025-07-09T08:00:00.000Z".
Definition phoenix : entry :=
  sample_entry (dec 3345 2) (dec (-11207) 2) "2025-07-08T11:00:00.000Z".

Definition world_with (c : content) : world :=
  {| fs := {| stored := c; readable := true; writable := true |}; log := [] |}.

(** An upstream service that answers every coordinate. *)
Definition always_answers (lat lon : jsval) : option nasa_data := Some sample_raw.

(** A clock. *)
Definition noon : string := "2025-07-10T12:00:00.000Z".

(** The value a stored result holds for [month] of [year]. *)
Definition value_of (r : json_result) (year month : string) : option jsval :=
  r !! year ≫= (fun rec : gmap string jsval => rec !! month).

(** An entry whose results hold NaN, as for a sample that is not a
    number, and -0, as [+(-0.001).toFixed(2)] gives. *)
Definition toronto_nan : entry :=
  {| latitude := VNumber (dec 4365 2); longitude := VNumber (dec (-7938) 2);
     solar := result_values {[ "2012" := {[ "01" := NaN; "annual" := NaN ]} ]};
     wind := result_values
               {[ "2012" := {[ "01" := S754_zero true; "annual" := S754_zero true ]} ]};
     rawData := None; timestamp := noon |}.

(** An entry whose latitude is Infinity, as POST /api/calculate builds
    it for a body that writes [1e999]. *)
Definition north_of_everything : entry :=
  sample_entry (S754_infinity false) (dec 5 3) "2025-07-08T12:30:00.000Z".

(** An entry within the tolerance of latitude 0. *)
Definition near_equator : entry :=
  sample_entry (dec 1 3) (dec 5 3) "2025-07-08T12:00:00.000Z".

(** A [parseFloat] for the decimal strings used in the examples. *)
Definition parse_sample (s : string) : number :=
  if String.eqb s "100" then of_Z 100
  else if String.eqb s "10" then of_Z 10
  else if String.eqb s "90" then of_Z 90
  else if String.eqb s "-180" then of_Z (-180)
  else NaN.

(** POST /api/calculate bodies. *)
Definition body_of (lat lon area solarEfficiency windEfficiency : jsval)
    : calculate_body :=
  {| req_latitude := lat; req_longitude := lon; req_area := area;
     req_solarEfficiency := solarEfficiency; req_windEfficiency := windEfficiency |}.

(** The answer to a request with custom parameters, lines 154-160. *)
Definition custom_response (req : calculate_body)
    (customSolar customWind : energy_result) : response :=
  {| status := 200;
     json := EnergyBody
       {| body_latitude := req_latitude req; body_longitude := req_longitude req;
          body_solar := Some (result_values customSolar);
          body_wind := Some (result_values customWind);
          body_timestamp := None;
          body_parameters :=
            Some (or_default (VNumber (of_Z 1)) (req_area req),
                  or_default (VNumber (dec 2 1)) (req_solarEfficiency req),
                  or_default (VNumber (dec 4 1)) (req_windEfficiency req)) |} |}.

(** Some parameter differs from its default, line 140. *)
Definition custom_parameters (req : calculate_body) : bool :=
  strict_neq_number (or_default (VNumber (of_Z 1)) (req_area req)) (of_Z 1)
  || strict_neq_number (or_default (VNumber (dec 2 1)) (req_solarEfficiency req)) (dec 2 1)
  || strict_neq_number (or_default (VNumber (dec 4 1)) (req_windEfficiency req)) (dec 4 1).

(** * The rest of the program *)

From stdpp Require pretty.

(** ** Further vocabulary for the calculator *)

(** The value a result holds for [month] of [year]. *)
Definition month_of (r : energy_result) (year month : string) : option number :=
  r !! year ≫= (fun rec : gmap string number => rec !! month).

(** A key the loop processes, with the year it belongs to. *)
Definition processed_in (year : string) (kv : string * number) : bool :=
  negb (skipped (fst kv)) && String.eqb (slice (fst kv) 0 4) year.

(** The properties of one year. *)
Definition of_year (year : string) (props : list (string * number))
    : list (string * number) :=
  List.filter (fun kv => String.eqb (slice (fst kv) 0 4) year) props.

(** The record written back by [accumulate], as a function of the record
    found for the year. *)
Definition record_after (found : option (gmap string number)) (month : string)
    (energy : number) : gmap string number :=
  let rec := default {[ "annual" := of_Z 0 ]} found in
  let rec := <[month := energy]> rec in
  let rec := <["annual" := (default NaN (rec !! "annual") + energy)%js]> rec in
  <["annual" := toFixed2 (default NaN (rec !! "annual"))]> rec.

(** Two months of 2012, the second one not a number. *)
Definition samples_with_nan : list (string * number) :=
  [("201201", dec 4 0); ("201202", NaN); ("201203", dec 3 0)].

(** ** utils/helpers.js, continued *)

(** [formatEnergyResponse(data, type)]: the base fields, then [solar]
    and [wind] as the type asks. *)
Definition formatEnergyResponse (data : entry) (type : string) : energy_body :=
  {| body_latitude := latitude data;
     body_longitude := longitude data;
     body_solar :=
       if String.eqb type "solar" || String.eqb type "both"
       then Some (solar data) else None;
     body_wind :=
       if String.eqb type "wind" || String.eqb type "both"
       then Some (wind data) else None;
     body_timestamp := Some (timestamp data);
     body_parameters := None |}.

(** ** Vocabulary of the statements about the handlers *)

(** The three types the routes of server.js pass to [getEnergyData]. *)
Definition route_type (type : string) : bool :=
  String.eqb type "solar" || String.eqb type "wind" || String.eqb type "both".

(** Both coordinates lie in their closed ranges. *)
Definition in_range (latitude longitude : number) : bool :=
  leb (of_Z (-90)) latitude && leb latitude (of_Z 90)
  && leb (of_Z (-180)) longitude && leb longitude (of_Z 180).

(** The result a calculator returned, empty if it threw. *)
Definition returned (c : completion energy_result) : energy_result :=
  match c with
  | Return r => r
  | Throw _ => ∅
  end.

(** The entry the handlers build from a fresh upstream answer: the
    calculators run with their default parameters. *)
Definition fresh_entry (Math_pow : number -> number -> number) (now : string)
    (lat lon : jsval) (raw : nasa_data) : entry :=
  {| latitude := lat; longitude := lon;
     solar := result_values (returned (calculateSolarEnergy (nasa_solar raw) None None));
     wind := result_values (returned (calculateWindEnergy Math_pow (nasa_wind raw) None None));
     rawData := Some raw; timestamp := now |}.

(** An entry with the coordinates of the request in place of its own. *)
Definition at_coordinates (lat lon : jsval) (e : entry) : entry :=
  {| latitude := lat; longitude := lon; solar := solar e; wind := wind e;
     rawData := rawData e; timestamp := timestamp e |}.

(** The upstream answer holds both series. *)
Definition complete_raw (raw : nasa_data) : bool :=
  has_raw (nasa_solar raw) && has_raw (nasa_wind raw).

(** The status codes the handlers use. *)
Definition known_status (s : nat) : bool :=
  (s =? 200)%nat || (s =? 400)%nat || (s =? 500)%nat.

(** An upstream service that never answers. *)
Definition never_answers (lat lon : jsval) : option nasa_data := None.

(** A [parseFloat] for the coordinates of the Toronto example. *)
Definition parse_toronto (s : string) : number :=
  if String.eqb s "43.65" then dec 4365 2
  else if String.eqb s "-79.38" then dec (-7938) 2
  else parse_sample s.

(** A disk that holds [db] and refuses writes. *)
Definition read_only_world (db : list entry) : world :=
  {| fs := {| stored := File (Document db); readable := true; writable := false |};
     log := [] |}.

(** A disk that holds [db], accepts writes and refuses reads. *)
Definition write_only_world (db : list entry) : world :=
  {| fs := {| stored := File (Document db); readable := false; writable := true |};
     log := [] |}.

(** The lookup found nothing usable: no entry, or one without raw data
    (line 114). *)
Definition needs_fetch (found : completion (option entry)) : bool :=
  match found with
  | Return None => true
  | Return (Some e) => match rawData e with None => true | Some _ => false end
  | Throw _ => false
  end.

(** The answer to a request with the default parameters, lines 164-169. *)
Definition default_response (req : calculate_body) (e : entry) : response :=
  {| status := 200;
     json := EnergyBody
       {| body_latitude := req_latitude req; body_longitude := req_longitude req;
          body_solar := Some (solar e); body_wind := Some (wind e);
          body_timestamp := None; body_parameters := None |} |}.

(** ** services/nasaService.js *)

Module NasaService.

(** The query sent to the NASA POWER monthly point endpoint. *)
Record query : Type := {
  q_parameters : string;
  q_community : string;
  q_longitude : jsval;
  q_latitude : jsval;
  q_start : string;
  q_end : string;
  q_format : string
}.

(** [data.properties.parameter]: the two series and the elevation. *)
Record parameter : Type := {
  ALLSKY_SFC_SW_DWN : samples;
  WS50M : samples;
  parameter_elevation : jsval
}.

(** The body of an answer, as far as the fetcher reads it; an absent
    object on the path is [None], and reading a property of it throws. *)
Record document : Type := {
  properties : option (option parameter);
  geometry : option (option (list jsval))
}.

Record http_response : Type := {
  http_status : nat;
  http_data : option document
}.

(** Reading a property of a value that may be undefined. *)
Definition property_of {A : Type} (o : option A) : completion A :=
  match o with
  | Some a => Return a
  | None => Throw (TypeError "Cannot read properties of undefined")
  end.

(** [array[i]]: [undefined] past the end. *)
Definition element (l : list jsval) (i : nat) : jsval :=
  match List.nth_error l i with
  | Some v => v
  | None => VUndefined
  end.

Section Fetch.
(** [axios.get(url, { params })]: the response, or the error axios
    rejects with (no connection, or a status outside 2xx). *)
Variable axios_get : string -> query -> completion http_response.

Definition fetch_body (latitude longitude : jsval) : completion nasa_data :=
  let params :=
    {| q_parameters := "ALLSKY_SFC_SW_DWN,WS50M"; q_community := "RE";
       q_longitude := longitude; q_latitude := latitude;
       q_start := "2012"; q_end := "2022"; q_format := "JSON" |} in
  let url := "https://power.larc.nasa.gov/api/temporal/monthly/point" in
  let* response := axios_get url params in
  if negb (http_status response =? 200)%nat then
    Throw (Error ("NASA API error: " +:+ pretty.pretty (http_status response)))
  else
    let* data := property_of (http_data response) in
    let* props := property_of (properties data) in
    let* param := property_of props in
    let solarData := ALLSKY_SFC_SW_DWN param in
    let windData := WS50M param in
    let* geom := property_of (geometry data) in
    let* coordinates := property_of geom in
    Return {| nasa_solar := solarData; nasa_wind := windData;
              metadata := {| meta_latitude := element coordinates 1;
                             meta_longitude := element coordinates 0;
                             elevation := parameter_elevation param |} |}.

(** [fetchNASAData]: whatever is thrown inside is replaced by one
    error. *)
Definition fetchNASAData (latitude longitude : jsval) : completion nasa_data :=
  match fetch_body latitude longitude with
  | Return data => Return data
  | Throw _ => Throw (Error "Failed to fetch data from NASA POWER API")
  end.

(** The fetcher as the handlers see it. *)
Definition as_api (latitude longitude : jsval) : option nasa_data :=
  match fetchNASAData latitude longitude with
  | Return data => Some data
  | Throw _ => None
  end.
End Fetch.

End NasaService.

(** A transport that answers 200 with [doc], and one that answers 204. *)
Definition answers_200 (doc : NasaService.document) (url : string)
    (q : NasaService.query) : completion NasaService.http_response :=
  Return {| NasaService.http_status := 200; NasaService.http_data := Some doc |}.

Definition answers_204 (url : string) (q : NasaService.query)
    : completion NasaService.http_response :=
  Return {| NasaService.http_status := 204; NasaService.http_data := None |}.

Definition toronto_document : NasaService.document :=
  {| NasaService.properties :=
       Some (Some {| NasaService.ALLSKY_SFC_SW_DWN := nasa_solar sample_raw;
                     NasaService.WS50M := nasa_wind sample_raw;
                     NasaService.parameter_elevation := VUndefined |});
     NasaService.geometry :=
       Some (Some [VNumber (dec (-7938) 2); VNumber (dec 4365 2); VNumber (dec 1167 1)]) |}.

(** ** client/src/services/apiService.js *)

Module ApiService.

(** What a client call can throw: an axios error with the server's
    response, an axios error without one (the request left, no answer
    came), or any other error with its message. *)
Inductive client_error : Type :=
  | WithResponse (status : nat) (data_error : option string) (statusText : string)
  | WithRequest (message : string)
  | Plain (message : string).

Inductive outcome (A : Type) : Type :=
  | Resolved (a : A)
  | Rejected (e : client_error).
Arguments Resolved {A} a.
Arguments Rejected {A} e.

(** The custom parameters held by the map component. *)
Record parameters : Type := {
  area : jsval;
  solarEfficiency : jsval;
  windEfficiency : jsval
}.

Section Client.
(** The payload of a successful answer is left abstract. *)
Variable payload : Type.
(** [apiClient.get(path)] and [apiClient.post(path, body)], resolved to
    [response.data] or rejected with an axios error. *)
Variable apiClient_get : string -> outcome payload.
Variable apiClient_post : string -> calculate_body -> outcome payload.
(** The string a template literal makes of a coordinate. *)
Variable ToString : jsval -> string.

(** Each of the four methods logs and rethrows what it caught. *)
Definition getSolarData (latitude longitude : jsval) : outcome payload :=
  apiClient_get ("/api/solar/" +:+ ToString latitude +:+ "/" +:+ ToString longitude).

Definition getWindData (latitude longitude : jsval) : outcome payload :=
  apiClient_get ("/api/wind/" +:+ ToString latitude +:+ "/" +:+ ToString longitude).

Definition getEnergyData (latitude longitude : jsval) : outcome payload :=
  apiClient_get ("/api/energy/" +:+ ToString latitude +:+ "/" +:+ ToString longitude).

Definition calculateEnergy (latitude longitude : jsval) (p : parameters)
    : outcome payload :=
  apiClient_post "/api/calculate"
    {| req_latitude := latitude; req_longitude := longitude;
       req_area := area p; req_solarEfficiency := solarEfficiency p;
       req_windEfficiency := windEfficiency p |}.

(** The [switch] of lines 181-200. *)
Definition route (endpoint : string) (latitude longitude : jsval)
    (p : option parameters) : outcome payload :=
  if String.eqb endpoint "solar" then getSolarData latitude longitude
  else if String.eqb endpoint "wind" then getWindData latitude longitude
  else if String.eqb endpoint "energy" then getEnergyData latitude longitude
  else if String.eqb endpoint "calculate" then
    match p with
    | None => Rejected (Plain "Parameters required for calculate endpoint")
    | Some p => calculateEnergy latitude longitude p
    end
  else Rejected (Plain "Invalid endpoint selected").

(** [a || b] on two strings of which the first may be undefined. *)
Definition or_else (a : option string) (b : string) : string :=
  match a with
  | Some s => if String.eqb s "" then b else s
  | None => b
  end.

(** The message built by the [catch] of lines 203-218. *)
Definition errorMessage (e : client_error) : string :=
  "Failed to fetch data. " +:+
  match e with
  | WithResponse status data_error statusText =>
      "Server responded with " +:+ pretty.pretty status +:+ ": "
      +:+ or_else data_error statusText
  | WithRequest _ =>
      "Unable to connect to the server. Please check if the backend is running."
  | Plain message => message
  end.

Definition fetchData (endpoint : string) (latitude longitude : jsval)
    (p : option parameters) : outcome payload :=
  match route endpoint latitude longitude p with
  | Resolved response => Resolved response
  | Rejected error => Rejected (Plain (errorMessage error))
  end.
End Client.

End ApiService.

(** ** client/src/MapComponent.jsx *)

Module MapComponent.

Section Parameters.
Variable parseFloat : string -> number.

End Parameters.

End MapComponent.

(** ** client/src/BarGraphContainer.jsx *)

Module BarGraphContainer.

(** The energy data handed to the component: either series may be
    absent.  Values are numbers. *)
Record energyData : Type := {
  data_solar : option energy_result;
  data_wind : option energy_result
}.

Definition months : list string :=
  ["01"; "02"; "03"; "04"; "05"; "06"; "07"; "08"; "09"; "10"; "11"; "12"].

Definition monthNames : list string :=
  ["Jan"; "Feb"; "Mar"; "Apr"; "May"; "Jun"; "Jul"; "Aug"; "Sep"; "Oct"; "Nov"; "Dec"].

(** [v || 0] for a month's value that may be undefined. *)
Definition or_zero (v : option number) : number :=
  match v with
  | Some x => if truthy x then x else of_Z 0
  | None => of_Z 0
  end.

(** A bar: [{ name, value }]. *)
Definition bar : Type := (string * number)%type.

(** [processYearlyData]: the bars it hands to [setProcessedData]. *)
Definition processYearlyData (energy : energyData) (dataType currentYear : string)
    : list bar :=
  let data := if String.eqb dataType "solar" then data_solar energy
              else data_wind energy in
  match data with
  | None => []
  | Some data =>
      match data !! currentYear with
      | None => []
      | Some yearData =>
          List.map (fun mn : string * string => (snd mn, or_zero (yearData !! fst mn)))
            (List.combine months monthNames)
      end
  end.

(** [availableYears.indexOf(currentYear)]; [currentYear] starts as
    [null], which no year equals. *)
Fixpoint indexOf_from (years : list string) (year : string) (i : Z) : Z :=
  match years with
  | [] => (-1)%Z
  | y :: rest => if String.eqb y year then i else indexOf_from rest year (i + 1)%Z
  end.

Definition indexOf (years : list string) (currentYear : option string) : Z :=
  match currentYear with
  | None => (-1)%Z
  | Some year => indexOf_from years year 0%Z
  end.

(** [availableYears[i]], [undefined] outside the array. *)
Definition year_at (years : list string) (i : Z) : option string :=
  if (i <? 0)%Z then None else List.nth_error years (Z.to_nat i).

(** The handlers return the new [currentYear]. *)
Definition handlePreviousYear (availableYears : list string)
    (currentYear : option string) : option string :=
  let currentIndex := indexOf availableYears currentYear in
  if (0 <? currentIndex)%Z then year_at availableYears (currentIndex - 1)%Z
  else currentYear.

Definition handleNextYear (availableYears : list string)
    (currentYear : option string) : option string :=
  let currentIndex := indexOf availableYears currentYear in
  if (currentIndex <? Z.of_nat (List.length availableYears) - 1)%Z
  then year_at availableYears (currentIndex + 1)%Z
  else currentYear.

End BarGraphContainer.

(** A transport for the client examples that never answers. *)
Definition no_server (path : string) : ApiService.outcome unit :=
  ApiService.Rejected (ApiService.WithRequest "Network Error").

Definition no_server_post (path : string) (body : calculate_body)
    : ApiService.outcome unit :=
  ApiService.Rejected (ApiService.WithRequest "Network Error").

Definition years_2012_2014 : list string := ["2012"; "2013"; "2014"].

(** ** The store invariant, world-wide *)

(** The store file, when it holds an array of entries, holds no two that
    read back within the tolerance of each other. *)
Definition world_ok (StringToNumber : string -> number) (w : world) : Prop :=
  match stored (fs w) with
  | File (Document db) => store_invariant StringToNumber (JSON_roundtrip <$> db)
  | _ => True
  end.

(** * Properties of the energy calculator *)

Section CalculatorFacts.

Lemma has_annual_empty : has_annual ∅.
Proof. intros year rec H. rewrite lookup_empty in H. discriminate. Qed.

Lemma month_is_not_annual (key : string) :
  skipped key = false -> slice key 4 6 <> "annual".
Proof.
  unfold skipped, MONTH_KEY_test. intros H.
  apply orb_false_iff in H as [H _].
  apply negb_false_iff, andb_true_iff in H as [Hlen _].
  apply Nat.eqb_eq in Hlen.
  do 7 (destruct key as [|? key]; try discriminate Hlen).
  unfold slice. simpl. discriminate.
Qed.

Lemma accumulate_other (r : energy_result) (year month year' : string) (e : number) :
  year <> year' -> accumulate r year month e !! year' = r !! year'.
Proof.
  intros Hne. unfold accumulate.
  rewrite lookup_insert_ne by exact Hne.
  destruct (r !! year); [reflexivity|].
  rewrite lookup_insert_ne by exact Hne. reflexivity.
Qed.

Lemma accumulate_same (r : energy_result) (year month : string) (e : number) :
  month <> "annual" ->
  exists rec : gmap string number,
    accumulate r year month e !! year = Some rec
    /\ rec !! "annual" = Some (add_round (running r year) e).
Proof.
  intros Hm. unfold accumulate, running, add_round.
  eexists. split; [apply lookup_insert_eq|].
  rewrite insert_insert_eq, lookup_insert_eq. f_equal.
  rewrite lookup_insert_eq. cbn [default from_option id].
  destruct (r !! year) as [rec|] eqn:Hr.
  - rewrite Hr. cbn [default from_option id].
    rewrite lookup_insert_ne by exact Hm. reflexivity.
  - rewrite lookup_insert_eq. cbn [default from_option id].
    rewrite lookup_insert_ne by exact Hm.
    rewrite lookup_singleton_eq. reflexivity.
Qed.

Lemma running_accumulate_same (r : energy_result) (year month : string) (e : number) :
  month <> "annual" ->
  running (accumulate r year month e) year = add_round (running r year) e.
Proof.
  intros Hm. destruct (accumulate_same r year month e Hm) as (rec & Hrec & Ha).
  unfold running at 1. rewrite Hrec, Ha. reflexivity.
Qed.

Lemma running_accumulate_other (r : energy_result) (year month year' : string) (e : number) :
  year <> year' ->
  running (accumulate r year month e) year' = running r year'.
Proof.
  intros Hne. unfold running. rewrite accumulate_other by exact Hne. reflexivity.
Qed.

Lemma has_annual_accumulate (r : energy_result) (year month : string) (e : number) :
  month <> "annual" -> has_annual r -> has_annual (accumulate r year month e).
Proof.
  intros Hm Hr year' rec Hrec.
  destruct (decide (year = year')) as [<-|Hne].
  - destruct (accumulate_same r year month e Hm) as (rec' & Hrec' & Ha).
    rewrite Hrec' in Hrec. injection Hrec as <-.
    rewrite running_accumulate_same by exact Hm. exact Ha.
  - rewrite running_accumulate_other by exact Hne.
    rewrite accumulate_other in Hrec by exact Hne.
    apply Hr. exact Hrec.
Qed.

Lemma step_skipped (energy_of : number -> number) (r : energy_result)
    (key : string) (v : number) :
  skipped key = true -> step energy_of r (key, v) = r.
Proof. intros H. unfold step. rewrite H. reflexivity. Qed.

(** The loop invariant: every record carries its running total, and
    the running total of a year has absorbed that year's months. *)
Lemma loop_running (energy_of : number -> number) (props : list (string * number)) :
  forall (r : energy_result) (year : string),
    has_annual r ->
    has_annual (foldl (step energy_of) r props)
    /\ running (foldl (step energy_of) r props) year
       = foldl add_round (running r year) (year_months energy_of props year).
Proof.
  induction props as [|[key v] props IH]; intros r year Hr.
  - split; [exact Hr | reflexivity].
  - cbn [foldl]. unfold year_months. cbn [List.filter fst snd].
    destruct (skipped key) eqn:Hskip.
    + rewrite step_skipped by exact Hskip. cbn [negb andb].
      apply IH. exact Hr.
    + pose proof (month_is_not_annual key Hskip) as Hm.
      assert (Hstep : step energy_of r (key, v)
                      = accumulate r (slice key 0 4) (slice key 4 6) (energy_of v))
        by (unfold step; rewrite Hskip; reflexivity).
      rewrite Hstep. cbn [negb andb].
      destruct (IH (accumulate r (slice key 0 4) (slice key 4 6) (energy_of v)) year
                  (has_annual_accumulate _ _ _ _ Hm Hr)) as [Hinv Hrun].
      split; [exact Hinv|]. rewrite Hrun.
      destruct (String.eqb (slice key 0 4) year) eqn:Hy.
      * apply String.eqb_eq in Hy. subst year.
        cbn [map foldl snd]. rewrite running_accumulate_same by exact Hm.
        reflexivity.
      * apply String.eqb_neq in Hy.
        rewrite running_accumulate_other by exact Hy. reflexivity.
Qed.

Lemma loop_annual (energy_of : number -> number) (props : list (string * number))
    (year : string) (rec : gmap string number) :
  foldl (step energy_of) ∅ props !! year = Some rec ->
  rec !! "annual"
  = Some (foldl add_round (of_Z 0) (year_months energy_of props year)).
Proof.
  intros Hrec.
  destruct (loop_running energy_of props ∅ year has_annual_empty) as [Hinv Hrun].
  rewrite (Hinv year rec Hrec), Hrun. reflexivity.
Qed.

Lemma loop_drops_skipped (energy_of : number -> number)
    (before after : list (string * number)) (key : string) (v : number)
    (r : energy_result) :
  skipped key = true ->
  foldl (step energy_of) r (before ++ (key, v) :: after)
  = foldl (step energy_of) r (before ++ after).
Proof.
  intros H. rewrite !foldl_app. cbn [foldl].
  rewrite step_skipped by exact H. reflexivity.
Qed.

Lemma calculate_object (Math_pow : number -> number -> number) (c : calculator)
    (props : list (string * number)) (area efficiency : option number) :
  calculate Math_pow c (SObject props) area efficiency
  = Return (foldl (step (monthly Math_pow c area efficiency)) ∅ props).
Proof. destruct c; reflexivity. Qed.

End CalculatorFacts.

(** ** The key pattern *)

Lemma MONTH_KEY_test_iff (key : string) :
  MONTH_KEY_test key = true
  <-> String.length key = 6%nat
      /\ Forall (fun c => is_digit c = true) (list_ascii_of_string key).
Proof.
  unfold MONTH_KEY_test. rewrite andb_true_iff, Nat.eqb_eq.
  enough (H : all_digits key = true
              <-> Forall (fun c => is_digit c = true) (list_ascii_of_string key))
    by (rewrite H; reflexivity).
  induction key as [|c key IH]; cbn [all_digits list_ascii_of_string].
  - split; [constructor | reflexivity].
  - rewrite andb_true_iff, IH. split.
    + intros [Hc Hk]. constructor; assumption.
    + intros H. inversion H; subst. split; assumption.
Qed.

Example annual_average_key_is_skipped : skipped "201213" = true.
Proof. reflexivity. Qed.

Example month_key_is_processed : skipped "201212" = false.
Proof. reflexivity. Qed.

Example short_key_is_skipped : skipped "20121" = true.
Proof. reflexivity. Qed.

(** ** The single-sample wind example *)

(** In exact arithmetic the product is 27708912 / 10^6, and the nearest
    hundredth of it is 2771 / 100. *)
Lemma exact_wind_product :
  (5 * 1225 * 125664 * 125 * 4 * 720 = 27708912 * 10 ^ 7
   /\ (2 * 100 * 27708912 + 10 ^ 6) / (2 * 10 ^ 6) = 2771)%Z.
Proof. split; reflexivity. Qed.

Example wind_product_in_binary64 :
  (dec 5 1 * AIR_DENSITY * dec 125664 2 * of_Z 125 * dec 4 1
   * HOURS_PER_MONTH / of_Z 1000000)%js
  = S754_finite false 7799365359877618 (-48).
Proof. vm_compute. reflexivity. Qed.

(** C1 (as amended): for the single sample {"201201": 5.0}, area 1256.64
    and efficiency 0.4 (given or by default), calculateWindEnergy returns
    {"2012": {"01": 27.71, "annual": 27.71}}: the product
    0.5 * 1.225 * 1256.64 * 125 * 0.4 * 720 / 1e6 is 27.708912 and rounds
    to 27.71.  [Math.pow] is only asked to return 125 for 5 cubed. *)
Theorem wind_single_sample_is_27_71 (Math_pow : number -> number -> number)
    (Hpow : Math_pow (of_Z 5) (of_Z 3) = of_Z 125) :
  calculateWindEnergy Math_pow (SObject [("201201", of_Z 5)])
    (Some (dec 125664 2)) (Some (dec 4 1))
  = Return {[ "2012" := {[ "01" := dec 2771 2; "annual" := dec 2771 2 ]} ]}
  /\ calculateWindEnergy Math_pow (SObject [("201201", of_Z 5)]) None None
     = Return {[ "2012" := {[ "01" := dec 2771 2; "annual" := dec 2771 2 ]} ]}.
Proof.
  assert (Hm : wind_month Math_pow (dec 125664 2) (dec 4 1) (of_Z 5) = dec 2771 2).
  { unfold wind_month. rewrite Hpow. vm_compute. reflexivity. }
  assert (Hskip : skipped "201201" = false) by (vm_compute; reflexivity).
  assert (H : foldl (wind_step Math_pow (dec 125664 2) (dec 4 1)) ∅
                [("201201", of_Z 5)]
              = {[ "2012" := {[ "01" := dec 2771 2; "annual" := dec 2771 2 ]} ]}).
  { cbn [foldl]. unfold wind_step, step. rewrite Hskip, Hm.
    vm_compute. reflexivity. }
  split; unfold calculateWindEnergy; cbn [default from_option id Object_entries bind];
    rewrite H; reflexivity.
Qed.

Lemma wind_single_sample_is_27_71_witness :
  pow_by_mul (of_Z 5) (of_Z 3) = of_Z 125
  /\ month_value
       (calculateWindEnergy pow_by_mul (SObject [("201201", of_Z 5)]) None None)
       "2012" "01" = Some (dec 2771 2).
Proof.
  split; [vm_compute; reflexivity|].
  rewrite (proj2 (wind_single_sample_is_27_71 pow_by_mul eq_refl)).
  vm_compute. reflexivity.
Defined.

(** C1, as first stated: the value 27.72 is not what the call stores for
    month "01" of 2012. *)
Lemma wind_single_sample_is_not_27_72 :
  month_value
    (calculateWindEnergy pow_by_mul (SObject [("201201", of_Z 5)])
       (Some (dec 125664 2)) (Some (dec 4 1)))
    "2012" "01" <> Some (dec 2772 2).
Proof. vm_compute. discriminate. Qed.

(** ** The annual field *)



(** ** Keys that are skipped *)

(** C9: a key that is not made of exactly six digits, or that ends in
    "13", is skipped by both calculators whatever its value: the result
    is the one obtained without that key. *)
Theorem skipped_key_contributes_nothing
    (Math_pow : number -> number -> number) (c : calculator)
    (before after : list (string * number)) (key : string) (value : number)
    (area efficiency : option number)
    (Hkey : MONTH_KEY_test key = false \/ endsWith key "13" = true) :
  calculate Math_pow c (SObject (before ++ (key, value) :: after)) area efficiency
  = calculate Math_pow c (SObject (before ++ after)) area efficiency.
Proof.
  rewrite !calculate_object. f_equal.
  apply loop_drops_skipped. unfold skipped.
  destruct Hkey as [-> | ->]; [reflexivity | apply orb_true_r].
Qed.

Lemma skipped_key_contributes_nothing_witness :
  endsWith "201213" "13" = true
  /\ calculate pow_by_mul Wind
       (SObject ([("201201", dec 5 0)] ++ ("201213", dec 99 0) :: [("201202", dec 6 0)]))
       None None
     = calculate pow_by_mul Wind
         (SObject ([("201201", dec 5 0)] ++ [("201202", dec 6 0)])) None None.
Proof.
  split; [vm_compute; reflexivity|].
  apply skipped_key_contributes_nothing. right. vm_compute. reflexivity.
Defined.

(** ** Errors raised by the calculators *)

(** C7 (as amended): on a samples object both calculators return, and on
    an empty one they return the empty collection; on a missing mapping
    ([undefined] or [null]) [Object.keys] throws a TypeError. *)
Theorem calculators_return_on_objects_throw_on_missing
    (Math_pow : number -> number -> number) (c : calculator)
    (data : samples) (area efficiency : option number) :
  match data with
  | SObject props =>
      exists result, calculate Math_pow c data area efficiency = Return result
  | SUndefined | SNull =>
      exists msg, calculate Math_pow c data area efficiency = Throw (TypeError msg)
  end
  /\ calculate Math_pow c (SObject []) area efficiency = Return ∅.
Proof.
  split.
  - destruct data as [| |props].
    + destruct c; eexists; reflexivity.
    + destruct c; eexists; reflexivity.
    + rewrite calculate_object. eexists. reflexivity.
  - rewrite calculate_object. reflexivity.
Qed.

(** C7, as first stated: a missing samples mapping does not yield an
    empty collection, for neither calculator. *)
Lemma missing_samples_do_not_yield_empty :
  calculateSolarEnergy SUndefined None None <> Return ∅
  /\ calculateWindEnergy pow_by_mul SUndefined None None <> Return ∅.
Proof. split; discriminate. Qed.

(** * Properties of numbers used by the store *)

Section NumberFacts.

Lemma abs_normalize_opp (m e : Z) :
  abs (binary_normalize prec emax (- m) e false)
  = abs (binary_normalize prec emax m e false).
Proof.
  destruct m as [|p|p]; [reflexivity| |];
    [change (- Z.pos p)%Z with (Z.neg p) | change (- Z.neg p)%Z with (Z.pos p)];
    unfold binary_normalize, binary_round;
    destruct (shl_align p e _) as [mz ez];
    unfold binary_round_aux;
    destruct (shr_fexp prec emax (Z.pos mz) ez loc_Exact) as [mrs e'];
    destruct (shr_fexp prec emax _ e' loc_Exact) as [mrs' e''];
    destruct (shr_m mrs'); try reflexivity;
    destruct (e'' <=? emax - prec)%Z; reflexivity.
Qed.

(** [Math.abs(x - y)] and [Math.abs(y - x)] are the same number. *)
Lemma abs_sub_comm (x y : number) : abs (x - y)%js = abs (y - x)%js.
Proof.
  destruct x as [sx|sx| |sx mx ex], y as [sy|sy| |sy my ey];
    try reflexivity;
    try (destruct sx; reflexivity);
    try (destruct sy; reflexivity);
    try (destruct sx, sy; reflexivity).
  unfold sub, SFsub. rewrite (Z.min_comm ey ex).
  set (a := cond_Zopp sx _). set (b := cond_Zopp sy _).
  replace (b - a)%Z with (- (a - b))%Z by lia.
  symmetry. apply abs_normalize_opp.
Qed.

(** A finite number is at distance +0 from itself. *)
Lemma abs_sub_diag (x : number) :
  is_finite x = true -> abs (x - x)%js = S754_zero false.
Proof.
  destruct x as [s|s| |s m e]; try discriminate; intros _.
  - destruct s; reflexivity.
  - unfold sub, SFsub. rewrite Z.sub_diag. reflexivity.
Qed.

Lemma zero_below_tolerance : (S754_zero false <? dec 1 2)%js = true.
Proof. vm_compute. reflexivity. Qed.

Lemma compare_antisym (x y : number) :
  SFcompare y x = option_map CompOpp (SFcompare x y).
Proof.
  destruct x as [sx|sx| |sx mx ex], y as [sy|sy| |sy my ey];
    try reflexivity;
    try (destruct sx; reflexivity);
    try (destruct sy; reflexivity);
    try (destruct sx, sy; reflexivity).
  cbn [SFcompare option_map].
  assert (Hm : Pos.compare_cont Eq my mx = CompOpp (Pos.compare_cont Eq mx my))
    by (symmetry; apply (Pos.compare_cont_antisym mx my Eq)).
  rewrite (Z.compare_antisym ex ey), Hm.
  destruct sx, sy; cbn [CompOpp]; try reflexivity;
    destruct (ex ?= ey)%Z; cbn [CompOpp]; try reflexivity;
    destruct (Pos.compare_cont Eq mx my); reflexivity.
Qed.

(** For two numbers, [!(x < y)] is [y <= x] unless one of them is NaN. *)
Lemma not_ltb_leb (x y : number) :
  isNaN x = false -> isNaN y = false ->
  negb (x <? y)%js = leb y x.
Proof.
  intros Hx Hy. unfold ltb, leb, SFltb, SFleb.
  rewrite (compare_antisym x y).
  destruct x, y; try discriminate; cbn [SFcompare option_map];
    repeat match goal with |- context [if ?b then _ else _] => destruct b end;
    try reflexivity;
    repeat match goal with
           | |- context [match ?c with Eq => _ | Lt => _ | Gt => _ end] =>
               destruct c eqn:?; cbn [CompOpp]
           end; try reflexivity.
Qed.

End NumberFacts.

(** * Properties of the JSON round trip *)

Section JsonFacts.
Variable StringToNumber : string -> number.

Lemma JSON_value_idem (v : jsval) : JSON_value (JSON_value v) = JSON_value v.
Proof. destruct v as [| | |[| | |]|]; reflexivity. Qed.

Lemma JSON_sample_idem (x : number) : JSON_sample (JSON_sample x) = JSON_sample x.
Proof. destruct x; reflexivity. Qed.

Lemma JSON_result_idem (r : json_result) : JSON_result (JSON_result r) = JSON_result r.
Proof.
  unfold JSON_result. rewrite <- map_fmap_compose.
  apply map_fmap_ext. intros year rec _. cbn.
  rewrite <- map_fmap_compose.
  apply map_fmap_ext. intros month v _. apply JSON_value_idem.
Qed.

Lemma JSON_samples_idem (s : samples) : JSON_samples (JSON_samples s) = JSON_samples s.
Proof.
  destruct s as [| |props]; try reflexivity. cbn [JSON_samples]. f_equal.
  rewrite <- list_fmap_compose. apply list_fmap_ext.
  intros i [k x] _. cbn. rewrite JSON_sample_idem. reflexivity.
Qed.

(** Reading a text, writing what was read and reading again gives what
    was read the first time. *)
Lemma JSON_roundtrip_idem (e : entry) :
  JSON_roundtrip (JSON_roundtrip e) = JSON_roundtrip e.
Proof.
  destruct e as [lat lon so wi raw ts]. unfold JSON_roundtrip.
  cbn [latitude longitude solar wind rawData timestamp].
  rewrite !JSON_value_idem, !JSON_result_idem. f_equal.
  destruct raw as [[s w [mlat mlon el]]|]; [|reflexivity].
  cbn [fmap option_fmap option_map]. unfold JSON_nasa_data.
  cbn [nasa_solar nasa_wind metadata meta_latitude meta_longitude elevation].
  rewrite !JSON_samples_idem, !JSON_value_idem. reflexivity.
Qed.

Lemma JSON_roundtrip_read (db : list entry) :
  JSON_roundtrip <$> (JSON_roundtrip <$> db) = JSON_roundtrip <$> db.
Proof.
  rewrite <- list_fmap_compose. apply list_fmap_ext.
  intros i e _. apply JSON_roundtrip_idem.
Qed.

Lemma JSON_roundtrip_filter (p : entry -> bool) (db : list entry) :
  JSON_roundtrip <$> db = db ->
  JSON_roundtrip <$> List.filter p db = List.filter p db.
Proof.
  induction db as [|a db IH]; [reflexivity|].
  cbn [fmap list_fmap List.filter]. intros H. injection H as Ha Hdb.
  destruct (p a); [|exact (IH Hdb)].
  cbn [fmap list_fmap]. rewrite Ha. f_equal. exact (IH Hdb).
Qed.

(** *** Entries that come back as they were saved *)

Lemma plain_JSON_value (v : jsval) : plain_value v = true -> JSON_value v = v.
Proof. destruct v as [| | |[[]| | |]|]; try discriminate; reflexivity. Qed.

Lemma plain_JSON_result (r : json_result) : plain_result r -> JSON_result r = r.
Proof.
  intros H. unfold JSON_result. apply map_eq. intros year.
  rewrite lookup_fmap. destruct (r !! year) as [rec|] eqn:Hyear; [|reflexivity].
  cbn. f_equal. apply map_eq. intros month.
  rewrite lookup_fmap. destruct (rec !! month) as [v|] eqn:Hmonth; [|reflexivity].
  cbn. f_equal. apply plain_JSON_value. exact (H year rec Hyear month v Hmonth).
Qed.

Lemma plain_JSON_samples (s : samples) : plain_samples s -> JSON_samples s = s.
Proof.
  destruct s as [| |props]; try reflexivity. cbn [plain_samples JSON_samples].
  intros H. f_equal. induction H as [|[k x] props Hx _ IH]; [reflexivity|].
  cbn [fmap list_fmap]. cbn [fmap list_fmap] in IH. rewrite IH. f_equal.
  cbn in Hx |- *. f_equal. destruct x as [[]| | |]; try discriminate; reflexivity.
Qed.

Lemma plain_JSON_roundtrip (e : entry) : plain_entry e -> JSON_roundtrip e = e.
Proof.
  destruct e as [lat lon so wi raw ts].
  intros (Hlat & Hlon & Hso & Hwi & Hraw).
  cbn [latitude longitude solar wind rawData] in Hlat, Hlon, Hso, Hwi, Hraw.
  unfold JSON_roundtrip. cbn [latitude longitude solar wind rawData timestamp].
  rewrite (plain_JSON_value _ Hlat), (plain_JSON_value _ Hlon),
    (plain_JSON_result _ Hso), (plain_JSON_result _ Hwi). f_equal.
  destruct raw as [[s w [mlat mlon el]]|]; [|reflexivity].
  destruct Hraw as (Hs & Hw & Hmlat & Hmlon & Hel).
  cbn [nasa_solar nasa_wind metadata meta_latitude meta_longitude elevation]
    in Hs, Hw, Hmlat, Hmlon, Hel.
  cbn [fmap option_fmap option_map]. unfold JSON_nasa_data.
  cbn [nasa_solar nasa_wind metadata meta_latitude meta_longitude elevation].
  rewrite (plain_JSON_samples _ Hs), (plain_JSON_samples _ Hw),
    (plain_JSON_value _ Hmlat), (plain_JSON_value _ Hmlon), (plain_JSON_value _ Hel).
  reflexivity.
Qed.

(** *** Coordinates that keep their number *)

Lemma abs_sub_zero_r (x : number) (s : bool) :
  abs (x - S754_zero s)%js = abs (x - S754_zero false)%js.
Proof. destruct x as [[]|[]| |[] m e], s; reflexivity. Qed.

Lemma abs_sub_zero_l (y : number) (s : bool) :
  abs (S754_zero s - y)%js = abs (S754_zero false - y)%js.
Proof. destruct y as [[]|[]| |[] m e], s; reflexivity. Qed.

Lemma kept_coordinate_r (x : number) (v : jsval) :
  kept_coordinate v = true ->
  abs (x - ToNumber StringToNumber (JSON_value v))%js
  = abs (x - ToNumber StringToNumber v)%js.
Proof.
  destruct v as [| | |[s|s| |s m e]|]; try discriminate; try reflexivity.
  intros _. cbn [JSON_value JSON_number ToNumber]. symmetry. apply abs_sub_zero_r.
Qed.

Lemma kept_coordinate_l (y : number) (v : jsval) :
  kept_coordinate v = true ->
  abs (ToNumber StringToNumber (JSON_value v) - y)%js
  = abs (ToNumber StringToNumber v - y)%js.
Proof.
  destruct v as [| | |[s|s| |s m e]|]; try discriminate; try reflexivity.
  intros _. cbn [JSON_value JSON_number ToNumber]. symmetry. apply abs_sub_zero_l.
Qed.

Lemma within_kept (tolerance : number) (lat lon : jsval) (x : entry) :
  within StringToNumber tolerance lat lon x = true ->
  kept_coordinate lat = true /\ kept_coordinate lon = true.
Proof.
  unfold DatabaseService.within. intros H. apply andb_true_iff in H as [Hlat Hlon].
  assert (Hfar : forall (a : number) (v : jsval),
            (abs (a - ToNumber StringToNumber v) <? tolerance)%js = true ->
            kept_coordinate v = true).
  { intros a v. destruct v as [| | |[s|s| |s m e]|]; try reflexivity.
    - destruct a as [sa|[]| |sa ma ea], s; cbn; destruct tolerance as [|[]| |[]];
        discriminate.
    - destruct a; cbn; discriminate. }
  split; [exact (Hfar _ _ Hlat) | exact (Hfar _ _ Hlon)].
Qed.

Lemma finite_is_kept (v : jsval) :
  is_finite (ToNumber StringToNumber v) = true -> kept_coordinate v = true.
Proof. destruct v; try reflexivity. intros H. exact H. Qed.

(** An entry with such coordinates is near the same entries before and
    after the round trip. *)
Lemma near_JSON_r (x e : entry) :
  kept_coordinate (latitude e) = true -> kept_coordinate (longitude e) = true ->
  near StringToNumber x (JSON_roundtrip e) = near StringToNumber x e.
Proof.
  intros Hlat Hlon. unfold near, DatabaseService.within. cbn [JSON_roundtrip latitude longitude].
  rewrite (kept_coordinate_r _ _ Hlat), (kept_coordinate_r _ _ Hlon). reflexivity.
Qed.

Lemma near_JSON_l (e y : entry) :
  kept_coordinate (latitude e) = true -> kept_coordinate (longitude e) = true ->
  near StringToNumber (JSON_roundtrip e) y = near StringToNumber e y.
Proof.
  intros Hlat Hlon. unfold near, DatabaseService.within. cbn [JSON_roundtrip latitude longitude].
  rewrite (kept_coordinate_l _ _ Hlat), (kept_coordinate_l _ _ Hlon). reflexivity.
Qed.

End JsonFacts.

(** * Properties of the store *)

Section StoreFacts.
Variable StringToNumber : string -> number.

(** *** Running the service functions *)

Lemma readDatabase_run (w : world) :
  readDatabase w
  = (Return (read_of (fs w)),
     {| fs := disk_after_read (fs w); log := Consulted :: log w |}).
Proof.
  destruct w as [[st rd wr] lg].
  destruct st as [| |[|db|f]], rd, wr; reflexivity.
Qed.

Lemma read_of_entries (d : disk) :
  reads_entries d = true -> read_of d = Entries (database_of d).
Proof.
  unfold reads_entries, database_of.
  destruct (read_of d); [reflexivity | discriminate].
Qed.

Lemma findByCoordinates_reads (lat lon : jsval) (tolerance : option number) (w : world) :
  findByCoordinates StringToNumber lat lon tolerance w
  = (database_find (within StringToNumber (default (dec 1 2) tolerance) lat lon)
       (read_of (fs w)),
     {| fs := disk_after_read (fs w); log := Consulted :: log w |}).
Proof.
  unfold DatabaseService.findByCoordinates, mbind.
  rewrite readDatabase_run. reflexivity.
Qed.

Lemma findByCoordinates_run (lat lon : jsval) (tolerance : option number) (w : world) :
  reads_entries (fs w) = true ->
  findByCoordinates StringToNumber lat lon tolerance w
  = (Return (List.find (within StringToNumber (default (dec 1 2) tolerance) lat lon)
               (database_of (fs w))),
     {| fs := disk_after_read (fs w); log := Consulted :: log w |}).
Proof.
  intros Hd. rewrite findByCoordinates_reads, (read_of_entries _ Hd). reflexivity.
Qed.

(** A lookup that returns found its entry among those read, or among
    those before the [null]; one that returns nothing read an array of
    entries. *)
Lemma findByCoordinates_returned (lat lon : jsval) (tolerance : option number)
    (w : world) (found : option entry) :
  fst (findByCoordinates StringToNumber lat lon tolerance w) = Return found ->
  findByCoordinates StringToNumber lat lon tolerance w
  = (Return found, {| fs := disk_after_read (fs w); log := Consulted :: log w |}).
Proof.
  rewrite findByCoordinates_reads. cbn [fst]. intros ->. reflexivity.
Qed.

Lemma findByCoordinates_none (lat lon : jsval) (tolerance : option number) (w : world) :
  fst (findByCoordinates StringToNumber lat lon tolerance w) = Return None ->
  reads_entries (fs w) = true.
Proof.
  rewrite findByCoordinates_reads. cbn [fst].
  unfold reads_entries.
  destruct (read_of (fs w)) as [db|f]; [reflexivity|].
  destruct f as [[]| |before after]; cbn [database_find]; try discriminate.
  destruct (List.find _ before); discriminate.
Qed.

Lemma saveEnergyData_run (e : entry) (w : world) :
  writable (fs w) = true ->
  reads_entries (fs w) = true ->
  let db' :=
    List.filter (fun x => negb (within StringToNumber (dec 1 2) (latitude e) (longitude e) x))
      (database_of (fs w)) ++ [e] in
  saveEnergyData StringToNumber e w
  = (Return e,
     {| fs := {| stored := File (Document db');
                 readable := readable (fs w); writable := true |};
        log := Persisted db' :: Consulted :: log w |}).
Proof.
  intros Hw Hd db'. unfold DatabaseService.saveEnergyData, mbind.
  rewrite readDatabase_run, (read_of_entries _ Hd). subst db'.
  destruct w as [[st rd wr] lg]. cbn [fs writable] in Hw. subst wr.
  destruct st as [| |[|db|f]], rd; try discriminate Hd; reflexivity.
Qed.

Lemma saveEnergyData_read_only (e : entry) (w : world) :
  writable (fs w) = false ->
  exists err w', saveEnergyData StringToNumber e w = (Throw err, w') /\ fs w' = fs w.
Proof.
  intros Hw. destruct w as [[st rd wr] lg]. cbn [fs writable] in Hw. subst wr.
  unfold DatabaseService.saveEnergyData, mbind. rewrite readDatabase_run.
  destruct st as [| |[|db|[[]| |before after]]], rd;
    eexists _, _; (split; [reflexivity|]); reflexivity.
Qed.


(** *** The neighbourhood predicate *)

Lemma near_sym (a b : entry) : near StringToNumber a b = near StringToNumber b a.
Proof.
  unfold near, DatabaseService.within.
  rewrite (abs_sub_comm (ToNumber _ (latitude a))).
  rewrite (abs_sub_comm (ToNumber _ (longitude a))). reflexivity.
Qed.

Lemma near_self (e : entry) :
  finite_coordinates StringToNumber e -> near StringToNumber e e = true.
Proof.
  intros [Hlat Hlon]. unfold near, DatabaseService.within.
  rewrite (abs_sub_diag _ Hlat), (abs_sub_diag _ Hlon), zero_below_tolerance.
  reflexivity.
Qed.

(** *** Lists *)

Lemma find_app {A : Type} (p : A -> bool) (l1 l2 : list A) :
  List.find p (l1 ++ l2)
  = match List.find p l1 with
    | Some x => Some x
    | None => List.find p l2
    end.
Proof.
  induction l1 as [|a l1 IH]; cbn [app List.find]; [reflexivity|].
  destruct (p a); [reflexivity | exact IH].
Qed.

Lemma find_filter_negb {A : Type} (p : A -> bool) (l : list A) :
  List.find p (List.filter (fun x => negb (p x)) l) = None.
Proof.
  induction l as [|a l IH]; cbn [List.filter List.find]; [reflexivity|].
  destruct (p a) eqn:Hp; cbn [negb List.find]; [exact IH|].
  rewrite Hp. exact IH.
Qed.

Lemma filter_filter_negb {A : Type} (p : A -> bool) (l : list A) :
  List.filter p (List.filter (fun x => negb (p x)) l) = [].
Proof.
  induction l as [|a l IH]; cbn [List.filter]; [reflexivity|].
  destruct (p a) eqn:Hp; cbn [negb List.filter]; [exact IH|].
  rewrite Hp. exact IH.
Qed.

(** *** The invariant *)

Lemma store_invariant_nil : store_invariant StringToNumber [].
Proof. intros i j a b _ Ha. destruct i; discriminate Ha. Qed.

Lemma store_invariant_cons (a : entry) (l : list entry) :
  store_invariant StringToNumber (a :: l)
  <-> (forall b, In b l -> near StringToNumber a b = false) /\ store_invariant StringToNumber l.
Proof.
  split.
  - intros H. split.
    + intros b Hb. apply list_elem_of_In, list_elem_of_lookup in Hb as [i Hi].
      apply (H 0%nat (S i)); [discriminate | reflexivity | exact Hi].
    + intros i j x y Hij Hx Hy.
      apply (H (S i) (S j)); [congruence | exact Hx | exact Hy].
  - intros [Hhead Htail] i j x y Hij Hx Hy.
    destruct i as [|i], j as [|j]; cbn in Hx, Hy.
    + congruence.
    + injection Hx as <-. apply Hhead.
      apply list_elem_of_In, list_elem_of_lookup. exists j. exact Hy.
    + injection Hy as <-. rewrite near_sym. apply Hhead.
      apply list_elem_of_In, list_elem_of_lookup. exists i. exact Hx.
    + apply (Htail i j); [congruence | exact Hx | exact Hy].
Qed.

Lemma store_invariant_filter (p : entry -> bool) (l : list entry) :
  store_invariant StringToNumber l -> store_invariant StringToNumber (List.filter p l).
Proof.
  induction l as [|a l IH]; cbn [List.filter]; intros H; [exact H|].
  apply store_invariant_cons in H as [Hhead Htail].
  destruct (p a); [|exact (IH Htail)].
  apply store_invariant_cons. split; [|exact (IH Htail)].
  intros b Hb. apply Hhead. apply List.filter_In in Hb as [Hb _]. exact Hb.
Qed.

Lemma store_invariant_snoc (l : list entry) (e : entry) :
  store_invariant StringToNumber l ->
  (forall b, In b l -> near StringToNumber b e = false) ->
  store_invariant StringToNumber (l ++ [e]).
Proof.
  induction l as [|a l IH]; cbn [app]; intros H Hfar.
  - apply store_invariant_cons. split; [intros b []|apply store_invariant_nil].
  - apply store_invariant_cons in H as [Hhead Htail].
    apply store_invariant_cons. split.
    + intros b Hb. apply List.in_app_or in Hb as [Hb|[<-|[]]].
      * apply Hhead. exact Hb.
      * apply Hfar. left. reflexivity.
    + apply IH; [exact Htail|]. intros b Hb. apply Hfar. right. exact Hb.
Qed.

Lemma store_invariant_save (db : list entry) (e : entry) :
  store_invariant StringToNumber db ->
  store_invariant StringToNumber (List.filter (fun x => negb (near StringToNumber x e)) db ++ [e]).
Proof.
  intros H. apply store_invariant_snoc.
  - apply store_invariant_filter. exact H.
  - intros b Hb. apply List.filter_In in Hb as [_ Hb].
    apply negb_true_iff in Hb. exact Hb.
Qed.

End StoreFacts.

(** ** Replacement on save *)

(** C4: on a store that can be read and written and whose entries, as
    they are read, are pairwise more than the tolerance apart,
    [saveEnergyData] returns the entry and writes the entries it read
    that are not within 0.01 degrees of it on both axes, followed by the
    entry; read back, the invariant holds again, and the entry, as JSON
    keeps it, is the only one left in its neighbourhood. *)
Theorem save_preserves_store_invariant
    (StringToNumber : string -> number) (w : world) (db : list entry) (e : entry)
    (Hstored : stored (fs w) = File (Document db))
    (Hread : readable (fs w) = true)
    (Hwrite : writable (fs w) = true)
    (Hfinite : finite_coordinates StringToNumber e)
    (Hinv : store_invariant StringToNumber (JSON_roundtrip <$> db)) :
  exists (w' : world) (db' : list entry),
    saveEnergyData StringToNumber e w = (Return e, w')
    /\ stored (fs w') = File (Document db')
    /\ db' = List.filter (fun x => negb (near StringToNumber x e)) (JSON_roundtrip <$> db)
             ++ [e]
    /\ store_invariant StringToNumber (JSON_roundtrip <$> db')
    /\ List.filter (fun x => near StringToNumber x e) (JSON_roundtrip <$> db')
       = [JSON_roundtrip e].
Proof.
  assert (Hdb : database_of (fs w) = JSON_roundtrip <$> db)
    by (unfold database_of, read_of; rewrite Hstored, Hread; reflexivity).
  assert (Hentries : reads_entries (fs w) = true)
    by (unfold reads_entries, read_of; rewrite Hstored, Hread; reflexivity).
  destruct Hfinite as [Hlat Hlon].
  pose proof (finite_is_kept _ _ Hlat) as Klat.
  pose proof (finite_is_kept _ _ Hlon) as Klon.
  eexists _, _. split; [apply saveEnergyData_run; [exact Hwrite | exact Hentries]|].
  rewrite Hdb. split; [reflexivity|]. split; [reflexivity|].
  rewrite fmap_app, (JSON_roundtrip_filter _ _ (JSON_roundtrip_read db)).
  cbn [fmap list_fmap]. split.
  - apply store_invariant_snoc.
    + apply store_invariant_filter. exact Hinv.
    + intros b Hb. apply List.filter_In in Hb as [_ Hb].
      apply negb_true_iff in Hb. rewrite (near_JSON_r _ _ _ Klat Klon). exact Hb.
  - rewrite List.filter_app.
    rewrite (filter_filter_negb (fun x => near StringToNumber x e)).
    cbn [List.filter app].
    rewrite (near_JSON_l _ _ _ Klat Klon), (near_self _ _ (conj Hlat Hlon)).
    reflexivity.
Qed.

Lemma save_preserves_store_invariant_witness :
  exists w' : world,
    saveEnergyData no_strings toronto_again
      (world_with (File (Document [toronto; phoenix]))) = (Return toronto_again, w')
    /\ stored (fs w') = File (Document [phoenix; toronto_again])
    /\ store_invariant no_strings [phoenix; toronto_again].
Proof.
  destruct (save_preserves_store_invariant no_strings
              (world_with (File (Document [toronto; phoenix])))
              [toronto; phoenix] toronto_again)
    as (w' & db' & Hsave & Hfile & Hdb & Hinv & _).
  - reflexivity.
  - reflexivity.
  - reflexivity.
  - split; vm_compute; reflexivity.
  - apply store_invariant_cons. split.
    + intros b [<-|[]]. vm_compute. reflexivity.
    + apply store_invariant_cons. split; [intros b []|apply store_invariant_nil].
  - assert (Heq : db' = [phoenix; toronto_again])
      by (rewrite Hdb; vm_compute; reflexivity).
    rewrite Heq in Hfile, Hinv.
    exists w'. split; [exact Hsave|]. split; [exact Hfile | exact Hinv].
Defined.

(** ** Round trip *)

(** C5: on a store that can be read and written and does not read as
    something else than an array of entries, saving an entry with finite
    coordinates and then looking its coordinates up with the default
    tolerance returns the entry as JSON keeps it: with [null] for NaN
    and the infinities, and 0 for -0.  It is the very entry that was
    saved when every number of that entry is finite and not -0. *)
Theorem save_then_find_returns_entry
    (StringToNumber : string -> number) (w : world) (e : entry)
    (Hentries : reads_entries (fs w) = true)
    (Hread : readable (fs w) = true)
    (Hwrite : writable (fs w) = true)
    (Hfinite : finite_coordinates StringToNumber e) :
  exists w1 w2 : world,
    saveEnergyData StringToNumber e w = (Return e, w1)
    /\ findByCoordinates StringToNumber (latitude e) (longitude e) None w1
       = (Return (Some (JSON_roundtrip e)), w2)
    /\ (plain_entry e ->
        findByCoordinates StringToNumber (latitude e) (longitude e) None w1
        = (Return (Some e), w2)).
Proof.
  destruct Hfinite as [Hlat Hlon].
  pose proof (finite_is_kept _ _ Hlat) as Klat.
  pose proof (finite_is_kept _ _ Hlon) as Klon.
  pose proof (near_self _ _ (conj Hlat Hlon)) as Hself.
  rewrite <- (near_JSON_l _ _ _ Klat Klon) in Hself. unfold near in Hself.
  assert (Hfind : forall w1,
    w1 = {| fs := {| stored := File (Document
                       (List.filter
                          (fun x => negb (within StringToNumber (dec 1 2)
                                            (latitude e) (longitude e) x))
                          (database_of (fs w)) ++ [e]));
                     readable := readable (fs w); writable := true |};
            log := Persisted
                     (List.filter
                        (fun x => negb (within StringToNumber (dec 1 2)
                                          (latitude e) (longitude e) x))
                        (database_of (fs w)) ++ [e])
                   :: Consulted :: log w |} ->
    findByCoordinates StringToNumber (latitude e) (longitude e) None w1
    = (Return (Some (JSON_roundtrip e)),
       {| fs := disk_after_read (fs w1); log := Consulted :: log w1 |})).
  { intros w1 ->. rewrite findByCoordinates_reads.
    unfold read_of. cbn [fs stored readable]. rewrite Hread.
    cbn [default from_option id database_find].
    rewrite fmap_app. cbn [fmap list_fmap].
    rewrite find_app.
    destruct (List.find _ (JSON_roundtrip <$> List.filter _ _)) as [x|] eqn:Hx.
    - exfalso. apply List.find_some in Hx as [Hin Hx].
      apply list_elem_of_In, list_elem_of_fmap in Hin as (y & -> & Hy).
      apply list_elem_of_In, List.filter_In in Hy as [Hy Hfar].
      assert (Himage : JSON_roundtrip y = y).
      { unfold database_of, read_of in Hy.
        destruct (stored (fs w)) as [| |[|db|f]]; try (destruct Hy; fail).
        - destruct (readable (fs w)); [|destruct Hy].
          apply list_elem_of_In, list_elem_of_fmap in Hy as (z & -> & _).
          apply JSON_roundtrip_idem.
        - destruct (readable (fs w)); destruct Hy. }
      rewrite Himage in Hx. rewrite Hx in Hfar. discriminate Hfar.
    - cbn [List.find]. rewrite Hself. reflexivity. }
  eexists _, _. split; [apply saveEnergyData_run; [exact Hwrite | exact Hentries]|].
  split; [apply Hfind; reflexivity|].
  intros Hplain. rewrite (Hfind _ eq_refl), (plain_JSON_roundtrip _ Hplain).
  reflexivity.
Qed.

Lemma save_then_find_returns_entry_witness :
  exists w1 w2 : world,
    saveEnergyData no_strings toronto_again
      (world_with (File (Document [toronto; phoenix]))) = (Return toronto_again, w1)
    /\ findByCoordinates no_strings (VNumber (dec 43655 3)) (VNumber (dec (-79385) 3))
         None w1 = (Return (Some toronto_again), w2).
Proof.
  destruct (save_then_find_returns_entry no_strings
              (world_with (File (Document [toronto; phoenix]))) toronto_again)
    as (w1 & w2 & Hsave & Hfind & _).
  - reflexivity.
  - reflexivity.
  - reflexivity.
  - split; vm_compute; reflexivity.
  - exists w1, w2. split; [exact Hsave | exact Hfind].
Defined.

(** C5 fails for an entry that holds NaN or -0: saved to an empty store
    and looked up at its own coordinates, what comes back holds [null]
    where the saved solar result holds NaN and 0 where the saved wind
    result holds -0.  It fails for an entry whose latitude is Infinity,
    which is not found again; on a store file that holds [[null]] and on
    one that refuses writes, where the save throws; and on a store that
    cannot be read, where the saved entry is not found. *)
Lemma round_trip_is_not_the_identity :
  (exists (w1 w2 : world) (found : entry),
     saveEnergyData no_strings toronto_nan (world_with NoFile) = (Return toronto_nan, w1)
     /\ findByCoordinates no_strings (latitude toronto_nan) (longitude toronto_nan) None w1
        = (Return (Some found), w2)
     /\ value_of (solar toronto_nan) "2012" "01" = Some (VNumber NaN)
     /\ value_of (solar found) "2012" "01" = Some VNull
     /\ value_of (wind toronto_nan) "2012" "01" = Some (VNumber (S754_zero true))
     /\ value_of (wind found) "2012" "01" = Some (VNumber (S754_zero false))
     /\ found <> toronto_nan)
  /\ (exists w1 w2 : world,
        saveEnergyData no_strings north_of_everything (world_with NoFile)
        = (Return north_of_everything, w1)
        /\ findByCoordinates no_strings (latitude north_of_everything)
             (longitude north_of_everything) None w1
           = (Return None, w2))
  /\ (exists (err : exn) (w1 : world),
        saveEnergyData no_strings toronto
          (world_with (File (Foreign (ArrayWithNull [] [])))) = (Throw err, w1))
  /\ (exists (err : exn) (w1 : world),
        saveEnergyData no_strings toronto (read_only_world []) = (Throw err, w1))
  /\ (exists w1 w2 : world,
        saveEnergyData no_strings toronto (write_only_world []) = (Return toronto, w1)
        /\ findByCoordinates no_strings (latitude toronto) (longitude toronto) None w1
           = (Return None, w2)).
Proof.
  repeat split.
  - exists (snd (saveEnergyData no_strings toronto_nan (world_with NoFile))),
      (snd (findByCoordinates no_strings (latitude toronto_nan) (longitude toronto_nan) None
              (snd (saveEnergyData no_strings toronto_nan (world_with NoFile))))),
      (JSON_roundtrip toronto_nan).
    split; [vm_compute; reflexivity|].
    split; [vm_compute; reflexivity|].
    split; [vm_compute; reflexivity|].
    split; [vm_compute; reflexivity|].
    split; [vm_compute; reflexivity|].
    split; [vm_compute; reflexivity|].
    intros H. apply (f_equal (fun e => value_of (solar e) "2012" "01")) in H.
    vm_compute in H. discriminate H.
  - exists (snd (saveEnergyData no_strings north_of_everything (world_with NoFile))),
      (snd (findByCoordinates no_strings (latitude north_of_everything)
              (longitude north_of_everything) None
              (snd (saveEnergyData no_strings north_of_everything (world_with NoFile))))).
    split; vm_compute; reflexivity.
  - exists (TypeError "Cannot read properties of null (reading 'latitude')"),
      (snd (saveEnergyData no_strings toronto
              (world_with (File (Foreign (ArrayWithNull [] [])))))).
    vm_compute. reflexivity.
  - exists (Error "EACCES: permission denied, open"),
      (snd (saveEnergyData no_strings toronto (read_only_world []))).
    vm_compute. reflexivity.
  - exists (snd (saveEnergyData no_strings toronto (write_only_world []))),
      (snd (findByCoordinates no_strings (latitude toronto) (longitude toronto) None
              (snd (saveEnergyData no_strings toronto (write_only_world []))))).
    split; vm_compute; reflexivity.
Qed.

(** ** Failing reads *)

(** C6: when the store file is missing, unreadable or unparseable,
    [findByCoordinates] returns no entry and [getAllData] returns the
    empty array; neither throws. *)
Theorem read_failure_is_an_empty_store
    (StringToNumber : string -> number) (w : world)
    (lat lon : jsval) (tolerance : option number)
    (Hfail : read_failure (fs w)) :
  fst (findByCoordinates StringToNumber lat lon tolerance w) = Return None
  /\ fst (getAllData w) = Return [].
Proof.
  assert (Hdb : read_of (fs w) = Entries []).
  { unfold read_of.
    destruct Hfail as [H|H|H|H]; try (rewrite H; reflexivity).
    rewrite H. destruct (stored (fs w)) as [| |[|db|f]]; reflexivity. }
  rewrite findByCoordinates_reads. unfold getAllData. rewrite readDatabase_run.
  rewrite Hdb. split; reflexivity.
Qed.

Lemma read_failure_is_an_empty_store_witness :
  fst (findByCoordinates no_strings (VNumber (dec 4365 2)) (VNumber (dec (-7938) 2))
         None (world_with (File Malformed))) = Return None
  /\ fst (getAllData (world_with (File Malformed))) = Return [].
Proof.
  apply read_failure_is_an_empty_store.
  apply unparseable_file. reflexivity.
Defined.

(** * Properties of the request handlers *)

Section HandlerFacts.
Variable StringToNumber : string -> number.
Variable parseFloat : string -> number.
Variable Math_pow : number -> number -> number.
Variable nasa_api : jsval -> jsval -> option nasa_data.
Variable now : string.

(** A cache hit leaves the disk as it was: no file had to be created. *)
Lemma hit_keeps_disk (lat lon : jsval) (tolerance : option number)
    (w : world) (e : entry) :
  fst (findByCoordinates StringToNumber lat lon tolerance w) = Return (Some e) ->
  disk_after_read (fs w) = fs w.
Proof.
  rewrite findByCoordinates_reads. cbn [fst].
  unfold read_of, disk_after_read.
  destruct (stored (fs w)) as [| |text]; try discriminate. reflexivity.
Qed.

(** The range check of [validateCoordinates], read off the four
    comparisons: a pair is accepted exactly when both numbers lie in
    their closed ranges (NaN lies in none). *)
Lemma validateCoordinates_accepts_iff_in_range (lat lon : string) :
  validateCoordinates parseFloat lat lon = Valid (parseFloat lat) (parseFloat lon)
  <-> (leb (of_Z (-90)) (parseFloat lat) && leb (parseFloat lat) (of_Z 90)
       && leb (of_Z (-180)) (parseFloat lon) && leb (parseFloat lon) (of_Z 180)
       = true).
Proof.
  unfold validateCoordinates, gtb.
  destruct (isNaN (parseFloat lat)) eqn:Hlat.
  { destruct (parseFloat lat); try discriminate Hlat.
    cbn [orb]. split; [discriminate|]. cbn. discriminate. }
  destruct (isNaN (parseFloat lon)) eqn:Hlon.
  { destruct (parseFloat lon); try discriminate Hlon.
    cbn [orb]. split; [discriminate|]. unfold leb at 3 4. cbn.
    rewrite !andb_false_r. discriminate. }
  cbn [orb].
  rewrite <- (not_ltb_leb (parseFloat lat) (of_Z (-90)) Hlat eq_refl).
  rewrite <- (not_ltb_leb (of_Z 90) (parseFloat lat) eq_refl Hlat).
  rewrite <- (not_ltb_leb (parseFloat lon) (of_Z (-180)) Hlon eq_refl).
  rewrite <- (not_ltb_leb (of_Z 180) (parseFloat lon) eq_refl Hlon).
  destruct (parseFloat lat <? of_Z (-90))%js, (of_Z 90 <? parseFloat lat)%js,
    (parseFloat lon <? of_Z (-180))%js, (of_Z 180 <? parseFloat lon)%js;
    cbn; split; intros H; try reflexivity; discriminate H.
Qed.

Example boundary_coordinates_are_valid :
  validateCoordinates parse_sample "90" "-180" = Valid (of_Z 90) (of_Z (-180)).
Proof. vm_compute. reflexivity. Qed.

(** On the GET routes a rejected coordinate is answered with status 400
    before the store is consulted or the upstream service is called. *)
Lemma getEnergyData_rejects_invalid (type lat lon error : string) (w : world) :
  validateCoordinates parseFloat lat lon = Invalid error ->
  getEnergyData StringToNumber parseFloat Math_pow nasa_api now type lat lon w
  = (Return {| status := 400; json := ErrorBody error |}, w).
Proof.
  intros H. unfold getEnergyData, try_catch. rewrite H. reflexivity.
Qed.

End HandlerFacts.

(** ** Custom parameters *)

(** C8: when the store already holds an entry for the requested
    coordinate with its raw solar and wind samples, and some parameter
    differs from its default, [calculateEnergy] answers without writing:
    the disk is left as it was, nothing is persisted or fetched, and a
    request that passes the required-fields check gets the values
    recomputed from the raw samples with the supplied parameters. *)
Theorem custom_parameters_are_not_persisted
    (StringToNumber : string -> number) (Math_pow : number -> number -> number)
    (nasa_api : jsval -> jsval -> option nasa_data) (now : string)
    (req : calculate_body) (w : world) (e : entry) (raw : nasa_data)
    (solar_props wind_props : list (string * number))
    (Hhit : fst (findByCoordinates StringToNumber (req_latitude req) (req_longitude req)
                   None w) = Return (Some e))
    (Hraw : rawData e = Some raw)
    (Hsolar : nasa_solar raw = SObject solar_props)
    (Hwind : nasa_wind raw = SObject wind_props)
    (Hcustom : custom_parameters req = true) :
  exists (resp : response) (w' : world),
    calculateEnergy StringToNumber Math_pow nasa_api now req w = (Return resp, w')
    /\ fs w' = fs w
    /\ (forall ev, In ev (log w') -> In ev (log w) \/ ev = Consulted)
    /\ (ToBoolean (req_latitude req) = true ->
        ToBoolean (req_longitude req) = true ->
        exists customSolar customWind : energy_result,
          calculateSolarEnergy (nasa_solar raw)
            (Some (ToNumber StringToNumber (or_default (VNumber (of_Z 1)) (req_area req))))
            (Some (ToNumber StringToNumber
                     (or_default (VNumber (dec 2 1)) (req_solarEfficiency req))))
          = Return customSolar
          /\ calculateWindEnergy Math_pow (nasa_wind raw)
               (Some (ToNumber StringToNumber (or_default (VNumber (of_Z 1)) (req_area req))))
               (Some (ToNumber StringToNumber
                        (or_default (VNumber (dec 4 1)) (req_windEfficiency req))))
             = Return customWind
          /\ resp = custom_response req customSolar customWind).
Proof.
  pose proof (hit_keeps_disk _ _ _ _ _ _ Hhit) as Hdisk.
  unfold calculateEnergy, try_catch.
  destruct (ToBoolean (req_latitude req)) eqn:Hlat;
    [destruct (ToBoolean (req_longitude req)) eqn:Hlon|]; cbn [negb orb].
  - unfold mbind. rewrite (findByCoordinates_returned _ _ _ _ _ _ Hhit).
    unfold ret at 1. rewrite Hraw. unfold ret at 1.
    rewrite Hraw, Hsolar, Hwind. cbn [has_raw negb orb].
    unfold custom_parameters in Hcustom. rewrite Hcustom, Hdisk.
    eexists _, _. split; [reflexivity|]. split; [reflexivity|]. split.
    + cbn [log]. intros ev [<-|Hev]; [right; reflexivity | left; exact Hev].
    + intros _ _. eexists _, _. split; [reflexivity|]. split; reflexivity.
  - eexists _, _. split; [reflexivity|]. split; [reflexivity|].
    split; [intros ev Hev; left; exact Hev | discriminate].
  - eexists _, _. split; [reflexivity|]. split; [reflexivity|].
    split; [intros ev Hev; left; exact Hev | discriminate].
Qed.

Lemma custom_parameters_are_not_persisted_witness :
  let req := body_of (VNumber (dec 4365 2)) (VNumber (dec (-7938) 2))
               (VNumber (dec 25 0)) (VNumber (dec 22 2)) (VNumber (dec 35 2)) in
  let w := world_with (File (Document [toronto])) in
  exists (resp : response) (w' : world),
    calculateEnergy no_strings pow_by_mul always_answers noon req w = (Return resp, w')
    /\ fs w' = fs w
    /\ status resp = 200%nat.
Proof.
  intros req w.
  destruct (custom_parameters_are_not_persisted no_strings pow_by_mul always_answers
              noon req w toronto sample_raw
              [("201201", dec 4 0); ("201213", dec 41 1)]
              [("201201", dec 5 0); ("201213", dec 52 1)])
    as (resp & w' & Hrun & Hfs & _ & Hresp).
  - vm_compute. reflexivity.
  - reflexivity.
  - reflexivity.
  - reflexivity.
  - vm_compute. reflexivity.
  - exists resp, w'. split; [exact Hrun|]. split; [exact Hfs|].
    destruct Hresp as (customSolar & customWind & _ & _ & ->);
      [vm_compute; reflexivity | vm_compute; reflexivity | reflexivity].
Defined.

(** ** The required-fields check *)

(** C10: [calculateEnergy] tests latitude and longitude for truthiness;
    when either is falsy -- the number 0 included -- it answers status
    400 with 'Latitude and longitude are required' and has touched
    neither the store nor the upstream service. *)
Theorem calculate_rejects_falsy_coordinates
    (StringToNumber : string -> number) (Math_pow : number -> number -> number)
    (nasa_api : jsval -> jsval -> option nasa_data) (now : string)
    (req : calculate_body) (w : world)
    (Hfalsy : ToBoolean (req_latitude req) = false
              \/ ToBoolean (req_longitude req) = false) :
  calculateEnergy StringToNumber Math_pow nasa_api now req w
  = (Return {| status := 400;
               json := ErrorBody "Latitude and longitude are required" |}, w).
Proof.
  unfold calculateEnergy, try_catch.
  destruct Hfalsy as [H|H]; rewrite H; cbn [negb orb];
    rewrite ?orb_true_r; reflexivity.
Qed.

Lemma calculate_rejects_falsy_coordinates_witness :
  ToBoolean (VNumber (of_Z 0)) = false
  /\ calculateEnergy no_strings pow_by_mul always_answers noon
       (body_of (VNumber (of_Z 0)) (VNumber (dec (-7938) 2))
          VUndefined VUndefined VUndefined)
       (world_with (File (Document [toronto])))
     = (Return {| status := 400;
                  json := ErrorBody "Latitude and longitude are required" |},
        world_with (File (Document [toronto]))).
Proof.
  split; [reflexivity|].
  apply calculate_rejects_falsy_coordinates. left. reflexivity.
Defined.

(** ** Range validation on the calculate route *)

(** C2, at the failing input: POST /api/calculate with latitude 100 and
    longitude 10 on an empty store is not rejected; the upstream service
    is called with that coordinate, an entry for it is written to the
    store, and the answer has status 200.  On the GET routes the same
    coordinate is answered with status 400 and nothing else happens. *)
Theorem calculate_accepts_latitude_100 :
  let req := body_of (VNumber (of_Z 100)) (VNumber (of_Z 10))
               VUndefined VUndefined VUndefined in
  let w := world_with (File (Document [])) in
  (exists (resp : response) (w' : world) (e : entry),
     calculateEnergy no_strings pow_by_mul always_answers noon req w = (Return resp, w')
     /\ status resp = 200%nat
     /\ In (Fetched (VNumber (of_Z 100)) (VNumber (of_Z 10))) (log w')
     /\ stored (fs w') = File (Document [e])
     /\ latitude e = VNumber (of_Z 100))
  /\ getEnergyData no_strings parse_sample pow_by_mul always_answers noon
       "both" "100" "10" w
     = (Return {| status := 400;
                  json := ErrorBody "Latitude must be between -90 and 90" |}, w).
Proof.
  intros req w. split.
  - set (r := calculateEnergy no_strings pow_by_mul always_answers noon req w).
    exists (match fst r with Return resp => resp | Throw _ => internal_server_error end),
           (snd r),
           (match stored (fs (snd r)) with
            | File (Document (e :: _)) => e
            | _ => toronto
            end).
    split; [vm_compute; reflexivity|].
    split; [vm_compute; reflexivity|].
    split; [vm_compute; repeat (first [left; reflexivity | right])|].
    split; vm_compute; reflexivity.
  - apply getEnergyData_rejects_invalid. vm_compute. reflexivity.
Qed.

(** * Further properties of the energy calculator *)

Section CalculatorMore.

Lemma accumulate_lookup (r : energy_result) (year month : string) (e : number) :
  accumulate r year month e !! year = Some (record_after (r !! year) month e).
Proof.
  unfold accumulate, record_after. rewrite lookup_insert_eq. f_equal.
  destruct (r !! year) as [rec|] eqn:Hr.
  - rewrite Hr. reflexivity.
  - rewrite (lookup_insert_eq r year). reflexivity.
Qed.

Lemma record_after_month (found : option (gmap string number)) (month : string)
    (e : number) :
  month <> "annual" -> record_after found month e !! month = Some e.
Proof.
  intros Hm. unfold record_after.
  rewrite !lookup_insert_ne by congruence. apply lookup_insert_eq.
Qed.

Lemma record_after_other (found : option (gmap string number)) (month month' : string)
    (e : number) :
  month' <> "annual" -> month' <> month ->
  record_after found month e !! month' = found ≫= (fun rec => rec !! month').
Proof.
  intros Ha Hm. unfold record_after.
  rewrite !lookup_insert_ne by congruence.
  destruct found as [rec|]; cbn [default from_option id mbind option_bind].
  - reflexivity.
  - apply lookup_singleton_ne. congruence.
Qed.

Lemma month_of_accumulate_same (r : energy_result) (year month : string) (e : number) :
  month <> "annual" -> month_of (accumulate r year month e) year month = Some e.
Proof.
  intros Hm. unfold month_of. rewrite accumulate_lookup.
  cbn [mbind option_bind]. apply record_after_month. exact Hm.
Qed.

Lemma month_of_accumulate_other (r : energy_result) (year month year' month' : string)
    (e : number) :
  month' <> "annual" -> (year', month') <> (year, month) ->
  month_of (accumulate r year month e) year' month' = month_of r year' month'.
Proof.
  intros Ha Hne. unfold month_of.
  destruct (decide (year = year')) as [<-|Hy].
  - rewrite accumulate_lookup. cbn [mbind option_bind].
    apply record_after_other; [exact Ha | congruence].
  - rewrite accumulate_other by exact Hy. reflexivity.
Qed.

(** A processed key is its year followed by its month. *)
Lemma processed_key_determined (k1 k2 : string) :
  skipped k1 = false -> skipped k2 = false ->
  slice k1 0 4 = slice k2 0 4 -> slice k1 4 6 = slice k2 4 6 -> k1 = k2.
Proof.
  unfold skipped, MONTH_KEY_test. intros H1 H2.
  apply orb_false_iff in H1 as [H1 _]. apply orb_false_iff in H2 as [H2 _].
  apply negb_false_iff, andb_true_iff in H1 as [H1 _].
  apply negb_false_iff, andb_true_iff in H2 as [H2 _].
  apply Nat.eqb_eq in H1, H2.
  do 7 (destruct k1 as [|? k1]; try discriminate H1).
  do 7 (destruct k2 as [|? k2]; try discriminate H2).
  unfold slice. cbn. intros Hy Hm.
  injection Hy as -> -> -> ->. injection Hm as -> ->. reflexivity.
Qed.

Lemma loop_keeps_month (energy_of : number -> number) (key : string)
    (props : list (string * number)) :
  skipped key = false ->
  (forall k v, In (k, v) props -> k <> key) ->
  forall r : energy_result,
    month_of (foldl (step energy_of) r props) (slice key 0 4) (slice key 4 6)
    = month_of r (slice key 0 4) (slice key 4 6).
Proof.
  intros Hkey. induction props as [|[k v] props IH]; intros Hfresh r.
  - reflexivity.
  - cbn [foldl]. rewrite IH by (intros k' v' Hin; apply (Hfresh k' v'); right; exact Hin).
    unfold step. destruct (skipped k) eqn:Hk; [reflexivity|].
    apply month_of_accumulate_other.
    + apply month_is_not_annual. exact Hkey.
    + intros Heq. injection Heq as Hy Hm.
      apply (Hfresh k v); [left; reflexivity|].
      apply processed_key_determined; [exact Hk | exact Hkey | | ]; congruence.
Qed.

Lemma loop_month (energy_of : number -> number) (key : string) (value : number)
    (props : list (string * number)) :
  skipped key = false ->
  NoDup (map fst props) ->
  In (key, value) props ->
  forall r : energy_result,
    month_of (foldl (step energy_of) r props) (slice key 0 4) (slice key 4 6)
    = Some (energy_of value).
Proof.
  intros Hkey. induction props as [|[k v] props IH]; intros Hnd Hin r.
  - destruct Hin.
  - cbn [map fst] in Hnd. apply NoDup_cons in Hnd as [Hk Hnd].
    cbn [foldl]. destruct Hin as [Heq|Hin].
    + injection Heq as -> ->.
      rewrite loop_keeps_month.
      * unfold step. rewrite Hkey. apply month_of_accumulate_same.
        apply month_is_not_annual. exact Hkey.
      * exact Hkey.
      * intros k' v' Hin' ->. apply Hk.
        apply list_elem_of_In. apply (in_map fst) in Hin'. exact Hin'.
    + apply IH; assumption.
Qed.

Lemma loop_years (energy_of : number -> number) (props : list (string * number))
    (year : string) :
  forall r : energy_result,
    is_Some (foldl (step energy_of) r props !! year)
    <-> is_Some (r !! year) \/ exists kv, In kv props /\ processed_in year kv = true.
Proof.
  induction props as [|[k v] props IH]; intros r.
  - cbn [foldl]. split; [intros H; left; exact H|].
    intros [H|(kv & [] & _)]. exact H.
  - cbn [foldl]. rewrite IH. unfold step.
    destruct (skipped k) eqn:Hk.
    + split.
      * intros [H|(kv & Hin & Hp)]; [left; exact H|].
        right. exists kv. split; [right; exact Hin | exact Hp].
      * intros [H|(kv & [<-|Hin] & Hp)]; [left; exact H| |].
        -- unfold processed_in in Hp. cbn [fst] in Hp. rewrite Hk in Hp. discriminate Hp.
        -- right. exists kv. split; assumption.
    + destruct (decide (slice k 0 4 = year)) as [Hy|Hy].
      * split; [intros _|intros _].
        -- right. exists (k, v). split; [left; reflexivity|].
           unfold processed_in. cbn [fst]. rewrite Hk.
           apply String.eqb_eq in Hy. rewrite Hy. reflexivity.
        -- left. rewrite <- Hy, accumulate_lookup. eexists. reflexivity.
      * rewrite accumulate_other by exact Hy. split.
        -- intros [H|(kv & Hin & Hp)]; [left; exact H|].
           right. exists kv. split; [right; exact Hin | exact Hp].
        -- intros [H|(kv & [<-|Hin] & Hp)]; [left; exact H| |].
           ++ unfold processed_in in Hp. cbn [fst] in Hp.
              apply andb_true_iff in Hp as [_ Hp]. apply String.eqb_eq in Hp.
              contradiction.
           ++ right. exists kv. split; assumption.
Qed.

Lemma loop_year_only (energy_of : number -> number) (year : string)
    (props : list (string * number)) :
  forall r r' : energy_result,
    r !! year = r' !! year ->
    foldl (step energy_of) r props !! year
    = foldl (step energy_of) r' (of_year year props) !! year.
Proof.
  induction props as [|[k v] props IH]; intros r r' Hr.
  - exact Hr.
  - cbn [foldl of_year List.filter fst].
    destruct (String.eqb (slice k 0 4) year) eqn:Hy.
    + cbn [foldl]. apply IH. unfold step.
      destruct (skipped k); [exact Hr|].
      apply String.eqb_eq in Hy. subst year.
      rewrite !accumulate_lookup, Hr. reflexivity.
    + apply IH. unfold step. destruct (skipped k); [exact Hr|].
      apply String.eqb_neq in Hy.
      rewrite accumulate_other by exact Hy. exact Hr.
Qed.

Lemma add_round_nan_r (total : number) : add_round total NaN = NaN.
Proof. destruct total; reflexivity. Qed.

Lemma add_round_nan_l (energy : number) : add_round NaN energy = NaN.
Proof. reflexivity. Qed.

Lemma running_total_nan (energies : list number) :
  forall total : number,
    total = NaN \/ In NaN energies -> foldl add_round total energies = NaN.
Proof.
  induction energies as [|e energies IH]; intros total H.
  - destruct H as [H|[]]. exact H.
  - cbn [foldl]. apply IH. destruct H as [->|[->|H]].
    + left. apply add_round_nan_l.
    + left. apply add_round_nan_r.
    + right. exact H.
Qed.

Lemma solar_month_nan (area efficiency : number) :
  solar_month area efficiency NaN = NaN.
Proof. reflexivity. Qed.

Lemma wind_month_nan (Math_pow : number -> number -> number) (area efficiency : number) :
  Math_pow NaN (of_Z 3) = NaN -> wind_month Math_pow area efficiency NaN = NaN.
Proof.
  intros H. unfold wind_month. rewrite H.
  destruct (dec 5 1 * AIR_DENSITY * area)%js; reflexivity.
Qed.

End CalculatorMore.

(** Every processed key of a samples object stores the monthly value of
    its sample under its year and month: keys are distinct, so no later
    key overwrites it. *)
Theorem processed_key_stores_its_month
    (Math_pow : number -> number -> number) (c : calculator)
    (props : list (string * number)) (area efficiency : option number)
    (key : string) (value : number)
    (Hkeys : NoDup (map fst props))
    (Hin : In (key, value) props)
    (Hkey : skipped key = false) :
  month_value (calculate Math_pow c (SObject props) area efficiency)
    (slice key 0 4) (slice key 4 6)
  = Some (monthly Math_pow c area efficiency value).
Proof.
  rewrite calculate_object.
  exact (loop_month _ key value props Hkey Hkeys Hin ∅).
Qed.

Lemma processed_key_stores_its_month_witness :
  month_value (calculate pow_by_mul Solar (SObject sample_months) None None)
    "2012" "02" = Some (dec 20 0).
Proof.
  etransitivity.
  - apply (processed_key_stores_its_month pow_by_mul Solar sample_months None None
             "201202" (dec 3333 3)).
    + apply (bool_decide_unpack _). vm_compute. exact I.
    + right. left. reflexivity.
    + reflexivity.
  - vm_compute. reflexivity.
Defined.

(** The years of the result are exactly the years of the processed keys:
    a year has a record if and only if some key of that year passed the
    guard. *)
Theorem result_years_are_processed_years
    (Math_pow : number -> number -> number) (c : calculator)
    (props : list (string * number)) (area efficiency : option number) :
  exists result : energy_result,
    calculate Math_pow c (SObject props) area efficiency = Return result
    /\ forall year : string,
         is_Some (result !! year)
         <-> exists kv, In kv props /\ processed_in year kv = true.
Proof.
  rewrite calculate_object. eexists. split; [reflexivity|].
  intros year. rewrite loop_years. split.
  - intros [H|H]; [|exact H]. rewrite lookup_empty in H. destruct H as [x H].
    discriminate H.
  - intros H. right. exact H.
Qed.

(** A sample that is not a number makes the annual total of its year not
    a number, whatever the other months hold (for wind, provided
    [Math.pow] maps NaN to NaN). *)
Theorem nan_sample_poisons_annual
    (Math_pow : number -> number -> number) (c : calculator)
    (props : list (string * number)) (area efficiency : option number)
    (key : string)
    (Hpow : c = Wind -> Math_pow NaN (of_Z 3) = NaN)
    (Hin : In (key, NaN) props)
    (Hkey : skipped key = false) :
  exists (result : energy_result) (rec : gmap string number),
    calculate Math_pow c (SObject props) area efficiency = Return result
    /\ result !! slice key 0 4 = Some rec
    /\ rec !! "annual" = Some NaN.
Proof.
  rewrite calculate_object.
  assert (Hsome : is_Some (foldl (step (monthly Math_pow c area efficiency)) ∅ props
                           !! slice key 0 4)).
  { apply loop_years. right. exists (key, NaN). split; [exact Hin|].
    unfold processed_in. cbn [fst]. rewrite Hkey, String.eqb_refl. reflexivity. }
  destruct Hsome as [rec Hrec]. eexists _, rec.
  split; [reflexivity|]. split; [exact Hrec|].
  rewrite (loop_annual _ _ _ _ Hrec). f_equal.
  apply running_total_nan. right. unfold year_months.
  assert (Hnan : monthly Math_pow c area efficiency NaN = NaN).
  { destruct c; [apply solar_month_nan | apply wind_month_nan, Hpow; reflexivity]. }
  rewrite <- Hnan at 1.
  apply (in_map (fun kv => monthly Math_pow c area efficiency (snd kv)) _ (key, NaN)).
  apply List.filter_In. split; [exact Hin|].
  cbn [fst]. rewrite Hkey, String.eqb_refl. reflexivity.
Qed.

Lemma nan_sample_poisons_annual_witness :
  exists (result : energy_result) (rec : gmap string number),
    calculate pow_by_mul Solar (SObject samples_with_nan) None None = Return result
    /\ result !! "2012" = Some rec
    /\ rec !! "annual" = Some NaN.
Proof.
  apply (nan_sample_poisons_annual pow_by_mul Solar samples_with_nan None None "201202").
  - discriminate.
  - right. left. reflexivity.
  - reflexivity.
Defined.

(** A year's record depends on the keys of that year only: dropping the
    keys of every other year leaves it as it is. *)
Theorem year_record_depends_on_its_keys_only
    (Math_pow : number -> number -> number) (c : calculator)
    (props : list (string * number)) (area efficiency : option number)
    (year : string) :
  exists result result' : energy_result,
    calculate Math_pow c (SObject props) area efficiency = Return result
    /\ calculate Math_pow c (SObject (of_year year props)) area efficiency
       = Return result'
    /\ result !! year = result' !! year.
Proof.
  rewrite !calculate_object. eexists _, _.
  split; [reflexivity|]. split; [reflexivity|].
  apply loop_year_only. reflexivity.
Qed.

(** * Further properties of the store *)

Section StoreMore.
Variable StringToNumber : string -> number.

Lemma find_first {A : Type} (p : A -> bool) (l : list A) (x : A) :
  List.find p l = Some x ->
  exists before after,
    l = before ++ x :: after /\ p x = true /\ Forall (fun y => p y = false) before.
Proof.
  induction l as [|a l IH]; cbn [List.find]; [discriminate|].
  destruct (p a) eqn:Hp.
  - intros H. injection H as <-. exists [], l. repeat split; [exact Hp | constructor].
  - intros H. destruct (IH H) as (before & after & -> & Hx & Hb).
    exists (a :: before), after. repeat split; [exact Hx|].
    constructor; assumption.
Qed.

Lemma find_all_false {A : Type} (p : A -> bool) (l : list A) :
  Forall (fun y => p y = false) l <-> List.find p l = None.
Proof.
  induction l as [|a l IH]; cbn [List.find].
  - split; [reflexivity | constructor].
  - split.
    + intros H. inversion H as [|? ? Ha Hl]; subst. rewrite Ha. apply IH. exact Hl.
    + destruct (p a) eqn:Hp; [discriminate|]. intros H.
      constructor; [exact Hp | apply IH; exact H].
Qed.

Lemma find_filter_keep {A : Type} (p q : A -> bool) (l : list A) (x : A) :
  List.find p l = Some x -> q x = true -> List.find p (List.filter q l) = Some x.
Proof.
  induction l as [|a l IH]; cbn [List.find List.filter]; [discriminate|].
  destruct (p a) eqn:Hp.
  - intros H Hq. injection H as <-. rewrite Hq. cbn [List.find]. rewrite Hp. reflexivity.
  - intros H Hq. destruct (q a); [cbn [List.find]; rewrite Hp|]; apply IH; assumption.
Qed.

Lemma filter_idem {A : Type} (q : A -> bool) (l : list A) :
  List.filter q (List.filter q l) = List.filter q l.
Proof.
  induction l as [|a l IH]; cbn [List.filter]; [reflexivity|].
  destruct (q a) eqn:Hq; [cbn [List.filter]; rewrite Hq, IH; reflexivity | exact IH].
Qed.

Lemma database_of_stored (d : disk) (db : list entry) :
  stored d = File (Document db) -> readable d = true ->
  database_of d = JSON_roundtrip <$> db.
Proof. intros Hs Hr. unfold database_of, read_of. rewrite Hs, Hr. reflexivity. Qed.

Lemma reads_entries_stored (d : disk) (db : list entry) :
  stored d = File (Document db) -> reads_entries d = true.
Proof.
  intros Hs. unfold reads_entries, read_of. rewrite Hs.
  destruct (readable d); reflexivity.
Qed.

Lemma reads_entries_written (db : list entry) (rd wr : bool) :
  reads_entries {| stored := File (Document db); readable := rd; writable := wr |} = true.
Proof. destruct rd; reflexivity. Qed.

Lemma database_of_written (db : list entry) (wr : bool) :
  database_of {| stored := File (Document db); readable := true; writable := wr |}
  = JSON_roundtrip <$> db.
Proof. reflexivity. Qed.

(** What is read is what JSON keeps: writing it and reading it again
    changes nothing. *)
Lemma database_of_read (d : disk) :
  JSON_roundtrip <$> database_of d = database_of d.
Proof.
  unfold database_of, read_of.
  destruct (stored d) as [| |[|db|f]]; try reflexivity;
    destruct (readable d); try reflexivity.
  apply JSON_roundtrip_read.
Qed.

(** The entries read after a save that returned. *)
Lemma database_of_saved (d : disk) (p : entry -> bool) (e : entry) :
  JSON_roundtrip <$> (List.filter p (database_of d) ++ [e])
  = List.filter p (database_of d) ++ [JSON_roundtrip e].
Proof.
  rewrite fmap_app, (JSON_roundtrip_filter _ _ (database_of_read d)). reflexivity.
Qed.

Lemma initializeDatabase_run (w : world) :
  initializeDatabase w
  = match stored (fs w) with
    | File _ => (Return tt, w)
    | _ =>
        if writable (fs w) then
          (Return tt, {| fs := disk_after_read (fs w); log := log w |})
        else
          (Throw (Error match stored (fs w) with
                        | NoDirectory => "EACCES: permission denied, mkdir"
                        | _ => "EACCES: permission denied, open"
                        end), w)
    end.
Proof.
  destruct w as [[st rd wr] lg].
  destruct st as [| |text], wr; reflexivity.
Qed.

End StoreMore.

(** [initializeDatabase] can be called before every read: a second call
    changes nothing, an existing file is never touched, a successful call
    leaves a file in place and a failed one leaves the disk as it was. *)
Theorem initializeDatabase_is_idempotent (w : world) :
  snd (initializeDatabase (snd (initializeDatabase w))) = snd (initializeDatabase w)
  /\ match stored (fs w) with
     | File _ => initializeDatabase w = (Return tt, w)
     | _ => True
     end
  /\ match fst (initializeDatabase w) with
     | Return _ => exists text, stored (fs (snd (initializeDatabase w))) = File text
     | Throw _ => snd (initializeDatabase w) = w
     end.
Proof.
  destruct w as [[st rd wr] lg].
  destruct st as [| |text], wr; cbn; repeat split; eexists; reflexivity.
Qed.

(** [findByCoordinates] returns the first of the entries read from the
    store that is within the tolerance on both axes, and none exactly
    when no such entry is. *)
Theorem findByCoordinates_returns_first_match
    (StringToNumber : string -> number) (w : world) (db : list entry)
    (lat lon : jsval) (tolerance : option number)
    (Hstored : stored (fs w) = File (Document db))
    (Hread : readable (fs w) = true) :
  let p := within StringToNumber (default (dec 1 2) tolerance) lat lon in
  match fst (findByCoordinates StringToNumber lat lon tolerance w) with
  | Return (Some e) =>
      exists before after,
        JSON_roundtrip <$> db = before ++ e :: after /\ p e = true
        /\ Forall (fun x => p x = false) before
  | Return None => Forall (fun x => p x = false) (JSON_roundtrip <$> db)
  | Throw _ => False
  end
  /\ (Forall (fun x => p x = false) (JSON_roundtrip <$> db)
      -> fst (findByCoordinates StringToNumber lat lon tolerance w) = Return None).
Proof.
  intros p.
  rewrite (findByCoordinates_run _ _ _ _ _ (reads_entries_stored _ _ Hstored)),
    (database_of_stored _ _ Hstored Hread).
  cbn [fst]. fold p. split.
  - destruct (List.find p (JSON_roundtrip <$> db)) as [e|] eqn:Hfind.
    + apply find_first. exact Hfind.
    + apply find_all_false. exact Hfind.
  - intros H. apply find_all_false in H. rewrite H. reflexivity.
Qed.

Lemma findByCoordinates_returns_first_match_witness :
  fst (findByCoordinates no_strings (VNumber (dec 43652 3)) (VNumber (dec (-7938) 2))
         None (world_with (File (Document [phoenix; toronto; toronto_again]))))
  = Return (Some toronto)
  /\ fst (findByCoordinates no_strings (VNumber (dec 4925 2)) (VNumber (dec (-12312) 2))
            None (world_with (File (Document [phoenix; toronto]))))
     = Return None.
Proof.
  split.
  - vm_compute. reflexivity.
  - apply (findByCoordinates_returns_first_match no_strings
             (world_with (File (Document [phoenix; toronto]))) [phoenix; toronto]);
      [reflexivity | reflexivity |].
    repeat constructor.
Defined.

(** Saving the same entry again, on a store that reads as an array of
    entries, leaves the store as the first save left it. *)
Theorem saving_twice_is_saving_once
    (StringToNumber : string -> number) (w : world) (e : entry)
    (Hentries : reads_entries (fs w) = true)
    (Hread : readable (fs w) = true)
    (Hwrite : writable (fs w) = true)
    (Hfinite : finite_coordinates StringToNumber e) :
  exists w1 w2 : world,
    saveEnergyData StringToNumber e w = (Return e, w1)
    /\ saveEnergyData StringToNumber e w1 = (Return e, w2)
    /\ fs w2 = fs w1.
Proof.
  destruct Hfinite as [Hlat Hlon].
  pose proof (near_self _ _ (conj Hlat Hlon)) as Hself.
  rewrite <- (near_JSON_l _ _ _ (finite_is_kept _ _ Hlat) (finite_is_kept _ _ Hlon))
    in Hself.
  unfold near in Hself.
  eexists _, _. split; [apply saveEnergyData_run; [exact Hwrite | exact Hentries]|].
  split; [apply saveEnergyData_run; [reflexivity | apply reads_entries_written]|].
  cbn [fs]. rewrite Hread, database_of_written, database_of_saved.
  rewrite List.filter_app, filter_idem. cbn [List.filter].
  rewrite Hself. cbn [negb]. rewrite app_nil_r. reflexivity.
Qed.

Lemma saving_twice_is_saving_once_witness :
  exists w1 w2 : world,
    saveEnergyData no_strings toronto (world_with NoFile) = (Return toronto, w1)
    /\ saveEnergyData no_strings toronto w1 = (Return toronto, w2)
    /\ fs w2 = fs w1.
Proof.
  apply (saving_twice_is_saving_once no_strings (world_with NoFile) toronto).
  - reflexivity.
  - reflexivity.
  - reflexivity.
  - split; vm_compute; reflexivity.
Defined.

(** A lookup that hits an entry outside the neighbourhood of a newly
    saved entry hits the same entry after the save. *)
Theorem save_keeps_other_hits
    (StringToNumber : string -> number) (w : world) (db : list entry)
    (e x : entry) (lat lon : jsval) (tolerance : option number)
    (Hstored : stored (fs w) = File (Document db))
    (Hread : readable (fs w) = true)
    (Hwrite : writable (fs w) = true)
    (Hhit : fst (findByCoordinates StringToNumber lat lon tolerance w) = Return (Some x))
    (Hfar : near StringToNumber x e = false) :
  exists w1 : world,
    saveEnergyData StringToNumber e w = (Return e, w1)
    /\ fst (findByCoordinates StringToNumber lat lon tolerance w1) = Return (Some x).
Proof.
  pose proof (reads_entries_stored _ _ Hstored) as Hentries.
  eexists. split; [apply saveEnergyData_run; [exact Hwrite | exact Hentries]|].
  rewrite (findByCoordinates_run _ _ _ _ _ Hentries) in Hhit.
  rewrite findByCoordinates_run by apply reads_entries_written.
  cbn [fst] in Hhit |- *. injection Hhit as Hfind.
  cbn [fs]. rewrite Hread, database_of_written, database_of_saved.
  rewrite find_app.
  rewrite (find_filter_keep _ _ _ _ Hfind); [reflexivity|].
  unfold near in Hfar. rewrite Hfar. reflexivity.
Qed.

Lemma save_keeps_other_hits_witness :
  exists w1 : world,
    saveEnergyData no_strings toronto_again
      (world_with (File (Document [toronto; phoenix]))) = (Return toronto_again, w1)
    /\ fst (findByCoordinates no_strings (VNumber (dec 3345 2)) (VNumber (dec (-11207) 2))
              None w1) = Return (Some phoenix).
Proof.
  apply (save_keeps_other_hits no_strings (world_with (File (Document [toronto; phoenix])))
           [toronto; phoenix]).
  - reflexivity.
  - reflexivity.
  - reflexivity.
  - vm_compute. reflexivity.
  - vm_compute. reflexivity.
Defined.

(** When the store cannot be written, [saveEnergyData] throws and the
    disk is left as it was. *)
Theorem save_write_failure_is_thrown
    (StringToNumber : string -> number) (w : world) (e : entry)
    (Hwrite : writable (fs w) = false) :
  exists (err : exn) (w' : world),
    saveEnergyData StringToNumber e w = (Throw err, w')
    /\ fs w' = fs w
    /\ fst (getAllData w') = fst (getAllData w).
Proof.
  destruct (saveEnergyData_read_only StringToNumber e w Hwrite) as (err & w' & Hrun & Hfs).
  exists err, w'. split; [exact Hrun|]. split; [exact Hfs|].
  unfold getAllData. rewrite !readDatabase_run, Hfs. reflexivity.
Qed.

Lemma save_write_failure_is_thrown_witness :
  exists (err : exn) (w' : world),
    saveEnergyData no_strings toronto_again
      {| fs := {| stored := File (Document [toronto]); readable := true;
                  writable := false |};
         log := [] |} = (Throw err, w')
    /\ fst (getAllData w') = Return [toronto].
Proof.
  destruct (save_write_failure_is_thrown no_strings
              {| fs := {| stored := File (Document [toronto]); readable := true;
                          writable := false |};
                 log := [] |} toronto_again eq_refl)
    as (err & w' & Hrun & _ & Hall).
  exists err, w'. split; [exact Hrun|]. rewrite Hall. reflexivity.
Defined.

(** Replacement: after an entry is saved, the coordinate of an entry of
    the store that it replaced resolves to the new entry, as JSON keeps
    it. *)
Theorem replaced_coordinate_resolves_to_new_entry
    (StringToNumber : string -> number) (w : world) (db : list entry) (e x : entry)
    (Hstored : stored (fs w) = File (Document db))
    (Hread : readable (fs w) = true)
    (Hwrite : writable (fs w) = true)
    (Hinv : store_invariant StringToNumber (JSON_roundtrip <$> db))
    (Hx : In x (JSON_roundtrip <$> db))
    (Hnear : near StringToNumber x e = true) :
  exists w1 w2 : world,
    saveEnergyData StringToNumber e w = (Return e, w1)
    /\ findByCoordinates StringToNumber (latitude x) (longitude x) None w1
       = (Return (Some (JSON_roundtrip e)), w2).
Proof.
  pose proof (reads_entries_stored _ _ Hstored) as Hentries.
  destruct (within_kept _ _ _ _ _ Hnear) as [Klat Klon].
  eexists _, _. split; [apply saveEnergyData_run; [exact Hwrite | exact Hentries]|].
  rewrite findByCoordinates_run by apply reads_entries_written.
  cbn [fs]. rewrite Hread, database_of_written, database_of_saved.
  rewrite (database_of_stored _ _ Hstored Hread).
  cbn [default from_option id]. rewrite find_app.
  assert (Hnone : List.find (within StringToNumber (dec 1 2) (latitude x) (longitude x))
                    (List.filter
                       (fun y => negb (within StringToNumber (dec 1 2)
                                         (latitude e) (longitude e) y))
                       (JSON_roundtrip <$> db)) = None).
  { apply find_all_false. apply List.Forall_forall. intros y Hy.
    apply List.filter_In in Hy as [Hy Hfar]. apply negb_true_iff in Hfar.
    apply list_elem_of_In, list_elem_of_lookup in Hx as [i Hi].
    apply list_elem_of_In, list_elem_of_lookup in Hy as [j Hj].
    destruct (decide (j = i)) as [->|Hne].
    - rewrite Hi in Hj. injection Hj as <-. unfold near in Hnear. congruence.
    - exact (Hinv j i y x Hne Hj Hi). }
  rewrite Hnone. cbn [List.find].
  assert (Hlast : near StringToNumber (JSON_roundtrip e) x = true)
    by (rewrite (near_JSON_l _ _ _ Klat Klon), near_sym; exact Hnear).
  unfold near in Hlast. rewrite Hlast. reflexivity.
Qed.

Lemma replaced_coordinate_resolves_to_new_entry_witness :
  exists w1 w2 : world,
    saveEnergyData no_strings toronto_again
      (world_with (File (Document [toronto; phoenix]))) = (Return toronto_again, w1)
    /\ findByCoordinates no_strings (VNumber (dec 4365 2)) (VNumber (dec (-7938) 2))
         None w1 = (Return (Some toronto_again), w2).
Proof.
  apply (replaced_coordinate_resolves_to_new_entry no_strings
           (world_with (File (Document [toronto; phoenix]))) [toronto; phoenix]
           toronto_again toronto).
  - reflexivity.
  - reflexivity.
  - reflexivity.
  - apply store_invariant_cons. split.
    + intros b [<-|[]]. vm_compute. reflexivity.
    + apply store_invariant_cons. split; [intros b []|apply store_invariant_nil].
  - left. reflexivity.
  - vm_compute. reflexivity.
Defined.

(** * Further properties of the request handlers *)

Lemma mbind_inv {A B : Type} (m : M A) (k : A -> M B) (w w1 : world) (r : B) :
  mbind m k w = (Return r, w1) ->
  exists a w0, m w = (Return a, w0) /\ k a w0 = (Return r, w1).
Proof.
  unfold mbind. destruct (m w) as [[a|err] w0]; [|discriminate].
  intros H. exists a, w0. split; [reflexivity | exact H].
Qed.

Lemma try_catch_answers {A : Type} (m : M A) (fallback : A) (P : A -> Prop) (w : world) :
  P fallback ->
  (forall r w1, m w = (Return r, w1) -> P r) ->
  exists r w1, try_catch m (fun _ => ret fallback) w = (Return r, w1) /\ P r.
Proof.
  intros Hf Hm. unfold try_catch.
  destruct (m w) as [[r|err] w1] eqn:Hrun.
  - exists r, w1. split; [reflexivity | exact (Hm r w1 eq_refl)].
  - exists fallback, w1. split; [reflexivity | exact Hf].
Qed.

Lemma route_type_cases (type : string) :
  route_type type = true -> type = "solar" \/ type = "wind" \/ type = "both".
Proof.
  unfold route_type. rewrite !orb_true_iff, !String.eqb_eq. tauto.
Qed.

Lemma in_range_finite (latitude longitude : number) :
  in_range latitude longitude = true ->
  is_finite latitude = true /\ is_finite longitude = true.
Proof.
  unfold in_range. rewrite !andb_true_iff. intros [[[H1 H2] H3] H4].
  split.
  - destruct latitude as [s|[|]| |s m e]; try reflexivity; discriminate.
  - destruct longitude as [s|[|]| |s m e]; try reflexivity; discriminate.
Qed.

Section HandlerMore.
Variable StringToNumber : string -> number.
Variable Math_pow : number -> number -> number.
Variable nasa_api : jsval -> jsval -> option nasa_data.
Variable now : string.

Lemma fetch_and_store_run (lat lon : jsval) (raw : nasa_data) (w : world) :
  nasa_api lat lon = Some raw ->
  complete_raw raw = true ->
  writable (fs w) = true ->
  reads_entries (fs w) = true ->
  let e := fresh_entry Math_pow now lat lon raw in
  let db' :=
    List.filter (fun x => negb (within StringToNumber (dec 1 2) lat lon x))
      (database_of (fs w)) ++ [e] in
  fetch_and_store StringToNumber Math_pow nasa_api now lat lon w
  = (Return e,
     {| fs := {| stored := File (Document db');
                 readable := readable (fs w); writable := true |};
        log := Persisted db' :: Consulted :: Fetched lat lon :: log w |}).
Proof.
  intros Hapi Hraw Hw Hentries e db'. subst e db'.
  unfold complete_raw in Hraw. apply andb_true_iff in Hraw as [Hs Hwd].
  unfold fetch_and_store, fetchNASAData, mbind, emit. rewrite Hapi.
  unfold ret at 1, lift.
  destruct (nasa_solar raw) as [| |sp] eqn:Hsolar; try discriminate Hs.
  destruct (nasa_wind raw) as [| |wp] eqn:Hwind; try discriminate Hwd.
  cbn [calculateSolarEnergy calculateWindEnergy Object_entries bind].
  rewrite saveEnergyData_run by assumption.
  unfold fresh_entry. rewrite Hsolar, Hwind. reflexivity.
Qed.

Lemma fetch_and_store_offline (lat lon : jsval) (w : world) :
  nasa_api lat lon = None ->
  exists err,
    fetch_and_store StringToNumber Math_pow nasa_api now lat lon w
    = (Throw err, {| fs := fs w; log := Fetched lat lon :: log w |}).
Proof.
  intros Hapi. unfold fetch_and_store, fetchNASAData, mbind, emit.
  rewrite Hapi. eexists. reflexivity.
Qed.

End HandlerMore.

Section HandlerRuns.
Variable StringToNumber : string -> number.
Variable parseFloat : string -> number.
Variable Math_pow : number -> number -> number.
Variable nasa_api : jsval -> jsval -> option nasa_data.
Variable now : string.

Lemma validate_valid_in_range (lat lon : string) (latitude longitude : number) :
  validateCoordinates parseFloat lat lon = Valid latitude longitude ->
  latitude = parseFloat lat /\ longitude = parseFloat lon
  /\ in_range latitude longitude = true.
Proof.
  intros H.
  assert (Heq : latitude = parseFloat lat /\ longitude = parseFloat lon).
  { unfold validateCoordinates in H.
    repeat match type of H with
           | (if ?b then _ else _) = _ => destruct b; try discriminate H
           end.
    injection H as <- <-. split; reflexivity. }
  destruct Heq as [-> ->]. split; [reflexivity|]. split; [reflexivity|].
  apply validateCoordinates_accepts_iff_in_range. exact H.
Qed.

Lemma read_of_after_read (d : disk) :
  read_of (disk_after_read d) = read_of d.
Proof.
  destruct d as [st rd wr]. destruct st as [| |text], wr, rd; reflexivity.
Qed.

Lemma database_of_after_read (d : disk) :
  database_of (disk_after_read d) = database_of d.
Proof. unfold database_of. rewrite read_of_after_read. reflexivity. Qed.

Lemma reads_entries_after_read (d : disk) :
  reads_entries (disk_after_read d) = reads_entries d.
Proof. unfold reads_entries. rewrite read_of_after_read. reflexivity. Qed.

(** A lookup that returns nothing read an array of entries, none of them
    within the tolerance. *)
Lemma findByCoordinates_missed (lat lon : jsval) (tolerance : option number) (w : world) :
  fst (findByCoordinates StringToNumber lat lon tolerance w) = Return None ->
  reads_entries (fs w) = true
  /\ List.find (within StringToNumber (default (dec 1 2) tolerance) lat lon)
       (database_of (fs w)) = None.
Proof.
  intros H. pose proof (findByCoordinates_none _ _ _ _ _ H) as Hentries.
  split; [exact Hentries|].
  rewrite (findByCoordinates_run _ _ _ _ _ Hentries) in H. cbn [fst] in H.
  injection H as H. exact H.
Qed.

Lemma filter_all_kept {A : Type} (q : A -> bool) (l : list A) :
  Forall (fun x => q x = true) l -> List.filter q l = l.
Proof.
  induction 1 as [|a l Ha Hl IH]; cbn [List.filter]; [reflexivity|].
  rewrite Ha, IH. reflexivity.
Qed.

Lemma miss_keeps_all (p : entry -> bool) (db : list entry) :
  List.find p db = None -> List.filter (fun x => negb (p x)) db = db.
Proof.
  intros H. apply filter_all_kept.
  apply (proj2 (find_all_false p db)) in H.
  apply List.Forall_impl with (2 := H). intros x Hx. rewrite Hx. reflexivity.
Qed.

Lemma saveEnergyData_read_only_run (e : entry) (w : world) :
  writable (fs w) = false ->
  reads_entries (fs w) = true ->
  exists err,
    saveEnergyData StringToNumber e w
    = (Throw err,
       {| fs := fs w;
          log := Persisted
                   (List.filter
                      (fun x => negb (within StringToNumber (dec 1 2)
                                        (latitude e) (longitude e) x))
                      (database_of (fs w)) ++ [e])
                 :: Consulted :: log w |}).
Proof.
  intros Hw Hentries. unfold DatabaseService.saveEnergyData, mbind.
  rewrite readDatabase_run, (read_of_entries _ Hentries).
  destruct w as [[st rd wr] lg]. cbn [fs writable] in Hw. subst wr.
  destruct st as [| |[|db|f]], rd; try discriminate Hentries; eexists; reflexivity.
Qed.

(** The GET handler on a hit. *)
Lemma getEnergyData_hit_run (type lat lon : string) (latitude longitude : number)
    (w : world) (e : entry) :
  validateCoordinates parseFloat lat lon = Valid latitude longitude ->
  fst (findByCoordinates StringToNumber (VNumber latitude) (VNumber longitude) None w)
  = Return (Some e) ->
  route_type type = true ->
  getEnergyData StringToNumber parseFloat Math_pow nasa_api now type lat lon w
  = (Return {| status := 200;
               json := EnergyBody
                 (formatEnergyResponse
                    (at_coordinates (VNumber latitude) (VNumber longitude) e) type) |},
     {| fs := disk_after_read (fs w); log := Consulted :: log w |}).
Proof.
  intros Hvalid Hfind Htype.
  unfold getEnergyData, try_catch. rewrite Hvalid.
  unfold mbind. rewrite (findByCoordinates_returned _ _ _ _ _ _ Hfind).
  unfold ret at 1.
  destruct (route_type_cases type Htype) as [-> | [-> | ->]]; reflexivity.
Qed.

(** The GET handler on a miss that the upstream service answers. *)
Lemma getEnergyData_miss_run (type lat lon : string) (latitude longitude : number)
    (w : world) (raw : nasa_data) :
  validateCoordinates parseFloat lat lon = Valid latitude longitude ->
  fst (findByCoordinates StringToNumber (VNumber latitude) (VNumber longitude) None w)
  = Return None ->
  nasa_api (VNumber latitude) (VNumber longitude) = Some raw ->
  complete_raw raw = true ->
  writable (fs w) = true ->
  route_type type = true ->
  let e := fresh_entry Math_pow now (VNumber latitude) (VNumber longitude) raw in
  getEnergyData StringToNumber parseFloat Math_pow nasa_api now type lat lon w
  = (Return {| status := 200; json := EnergyBody (formatEnergyResponse e type) |},
     {| fs := {| stored := File (Document (database_of (fs w) ++ [e]));
                 readable := readable (fs w); writable := true |};
        log := Persisted (database_of (fs w) ++ [e]) :: Consulted
               :: Fetched (VNumber latitude) (VNumber longitude)
               :: Consulted :: log w |}).
Proof.
  intros Hvalid Hmiss Hapi Hraw Hw Htype e.
  destruct (findByCoordinates_missed _ _ _ _ Hmiss) as [Hentries Hfind].
  change (default (dec 1 2) None) with (dec 1 2) in Hfind.
  unfold getEnergyData, try_catch. rewrite Hvalid.
  unfold mbind at 1. rewrite (findByCoordinates_returned _ _ _ _ _ _ Hmiss).
  unfold mbind at 1.
  assert (Hw' : writable (fs {| fs := disk_after_read (fs w);
                                log := Consulted :: log w |}) = true).
  { cbn [fs]. revert Hw. destruct (fs w) as [[| |text] rd wr]; cbn;
      intros ->; reflexivity. }
  assert (Hentries' : reads_entries (fs {| fs := disk_after_read (fs w);
                                           log := Consulted :: log w |}) = true)
    by (cbn [fs]; rewrite reads_entries_after_read; exact Hentries).
  rewrite (fetch_and_store_run StringToNumber Math_pow nasa_api now _ _ raw _
             Hapi Hraw Hw' Hentries').
  cbn [fs log readable]. rewrite database_of_after_read.
  rewrite (miss_keeps_all _ _ Hfind).
  replace (readable (disk_after_read (fs w))) with (readable (fs w))
    by (destruct (fs w) as [[| |text] rd wr]; cbn; destruct wr; reflexivity).
  subst e.
  destruct (route_type_cases type Htype) as [-> | [-> | ->]]; reflexivity.
Qed.

End HandlerRuns.

Ltac answered H :=
  cbv delta [ret] beta in H; injection H; intros; subst; reflexivity.

(** Both handlers always answer: no exception escapes them, and the
    status of the answer is 200, 400 or 500. *)
Theorem handlers_always_answer
    (StringToNumber parseFloat : string -> number)
    (Math_pow : number -> number -> number)
    (nasa_api : jsval -> jsval -> option nasa_data) (now : string)
    (type lat lon : string) (req : calculate_body) (w : world) :
  (exists resp w',
     getEnergyData StringToNumber parseFloat Math_pow nasa_api now type lat lon w
     = (Return resp, w')
     /\ known_status (status resp) = true)
  /\ (exists resp w',
        calculateEnergy StringToNumber Math_pow nasa_api now req w = (Return resp, w')
        /\ known_status (status resp) = true).
Proof.
  split.
  - apply try_catch_answers; [reflexivity|]. intros r w1.
    destruct (validateCoordinates parseFloat lat lon) as [error|latitude longitude].
    + intros H. answered H.
    + intros H. apply mbind_inv in H as (found & w2 & _ & H).
      apply mbind_inv in H as (existing & w3 & _ & H).
      repeat match type of H with
             | (if ?b then _ else _) _ = _ => destruct b
             end; answered H.
  - apply try_catch_answers; [reflexivity|]. intros r w1. cbv zeta.
    destruct (negb (ToBoolean (req_latitude req)) || negb (ToBoolean (req_longitude req))).
    + intros H. answered H.
    + intros H. apply mbind_inv in H as (found & w2 & _ & H).
      apply mbind_inv in H as (energyData & w3 & _ & H).
      destruct (rawData energyData) as [raw|]; [|answered H].
      destruct (negb (has_raw (nasa_solar raw)) || negb (has_raw (nasa_wind raw)));
        [answered H|].
      match type of H with
      | (if ?b then _ else _) _ = _ => destruct b
      end; [|answered H].
      apply mbind_inv in H as (customSolar & w4 & _ & H).
      apply mbind_inv in H as (customWind & w5 & _ & H).
      answered H.
Qed.

(** GET, cache hit: the answer carries the cached solar and wind data and
    timestamp under the coordinates of the request, the upstream service
    is not called and nothing is written. *)
Theorem get_hit_is_served_from_cache
    (StringToNumber parseFloat : string -> number)
    (Math_pow : number -> number -> number)
    (nasa_api : jsval -> jsval -> option nasa_data) (now : string)
    (type lat lon : string) (latitude longitude : number) (w : world) (e : entry)
    (Hvalid : validateCoordinates parseFloat lat lon = Valid latitude longitude)
    (Hhit : fst (findByCoordinates StringToNumber (VNumber latitude) (VNumber longitude)
                   None w) = Return (Some e))
    (Htype : route_type type = true) :
  getEnergyData StringToNumber parseFloat Math_pow nasa_api now type lat lon w
  = (Return {| status := 200;
               json := EnergyBody
                 (formatEnergyResponse
                    (at_coordinates (VNumber latitude) (VNumber longitude) e) type) |},
     {| fs := fs w; log := Consulted :: log w |}).
Proof.
  pose proof (hit_keeps_disk _ _ _ _ _ _ Hhit) as Hdisk.
  rewrite (getEnergyData_hit_run StringToNumber parseFloat Math_pow nasa_api now
             type lat lon latitude longitude w e Hvalid Hhit Htype).
  rewrite Hdisk. reflexivity.
Qed.

Lemma get_hit_is_served_from_cache_witness :
  exists resp : response,
    getEnergyData no_strings parse_toronto pow_by_mul never_answers noon
      "solar" "43.65" "-79.38" (world_with (File (Document [phoenix; toronto])))
    = (Return resp,
       {| fs := fs (world_with (File (Document [phoenix; toronto])));
          log := [Consulted] |})
    /\ status resp = 200%nat.
Proof.
  eexists. split.
  - apply (get_hit_is_served_from_cache no_strings parse_toronto pow_by_mul
             never_answers noon "solar" "43.65" "-79.38" (dec 4365 2) (dec (-7938) 2)
             (world_with (File (Document [phoenix; toronto]))) toronto).
    + vm_compute. reflexivity.
    + vm_compute. reflexivity.
    + reflexivity.
  - reflexivity.
Defined.

(** GET, cache miss answered upstream: the handler calls the upstream
    service once, appends to the store the entry computed with the
    default parameters, removes nothing, and answers with that entry
    formatted for the route. *)
Theorem get_miss_fetches_and_stores
    (StringToNumber parseFloat : string -> number)
    (Math_pow : number -> number -> number)
    (nasa_api : jsval -> jsval -> option nasa_data) (now : string)
    (type lat lon : string) (latitude longitude : number) (w : world) (raw : nasa_data)
    (Hvalid : validateCoordinates parseFloat lat lon = Valid latitude longitude)
    (Hmiss : fst (findByCoordinates StringToNumber (VNumber latitude) (VNumber longitude)
                    None w) = Return None)
    (Hapi : nasa_api (VNumber latitude) (VNumber longitude) = Some raw)
    (Hraw : complete_raw raw = true)
    (Hwrite : writable (fs w) = true)
    (Htype : route_type type = true) :
  let e := fresh_entry Math_pow now (VNumber latitude) (VNumber longitude) raw in
  exists w' : world,
    getEnergyData StringToNumber parseFloat Math_pow nasa_api now type lat lon w
    = (Return {| status := 200; json := EnergyBody (formatEnergyResponse e type) |}, w')
    /\ stored (fs w') = File (Document (database_of (fs w) ++ [e]))
    /\ log w' = Persisted (database_of (fs w) ++ [e]) :: Consulted
                :: Fetched (VNumber latitude) (VNumber longitude)
                :: Consulted :: log w.
Proof.
  intros e. eexists. split.
  - apply (getEnergyData_miss_run StringToNumber parseFloat Math_pow nasa_api now
             type lat lon latitude longitude w raw Hvalid); assumption.
  - split; reflexivity.
Qed.

Lemma get_miss_fetches_and_stores_witness :
  exists w' : world,
    getEnergyData no_strings parse_toronto pow_by_mul always_answers noon
      "both" "43.65" "-79.38" (world_with (File (Document [phoenix])))
    = (Return {| status := 200;
                 json := EnergyBody
                   (formatEnergyResponse
                      (fresh_entry pow_by_mul noon (VNumber (dec 4365 2))
                         (VNumber (dec (-7938) 2)) sample_raw) "both") |}, w')
    /\ stored (fs w')
       = File (Document [phoenix;
                         fresh_entry pow_by_mul noon (VNumber (dec 4365 2))
                           (VNumber (dec (-7938) 2)) sample_raw]).
Proof.
  destruct (get_miss_fetches_and_stores no_strings parse_toronto pow_by_mul
              always_answers noon "both" "43.65" "-79.38" (dec 4365 2) (dec (-7938) 2)
              (world_with (File (Document [phoenix]))) sample_raw)
    as (w' & Hrun & Hstored & _).
  - vm_compute. reflexivity.
  - vm_compute. reflexivity.
  - reflexivity.
  - reflexivity.
  - reflexivity.
  - reflexivity.
  - exists w'. split; [exact Hrun | exact Hstored].
Defined.

(** GET, cache miss while the upstream service fails: the answer is 500
    'Internal server error', the failure detail is not passed on, and no
    entry is written. *)
Theorem get_upstream_failure_is_500
    (StringToNumber parseFloat : string -> number)
    (Math_pow : number -> number -> number)
    (nasa_api : jsval -> jsval -> option nasa_data) (now : string)
    (type lat lon : string) (latitude longitude : number) (w : world)
    (Hvalid : validateCoordinates parseFloat lat lon = Valid latitude longitude)
    (Hmiss : fst (findByCoordinates StringToNumber (VNumber latitude) (VNumber longitude)
                    None w) = Return None)
    (Hapi : nasa_api (VNumber latitude) (VNumber longitude) = None) :
  exists w' : world,
    getEnergyData StringToNumber parseFloat Math_pow nasa_api now type lat lon w
    = (Return {| status := 500; json := ErrorBody "Internal server error" |}, w')
    /\ log w' = Fetched (VNumber latitude) (VNumber longitude) :: Consulted :: log w
    /\ fst (getAllData w') = fst (getAllData w).
Proof.
  unfold getEnergyData, try_catch. rewrite Hvalid.
  unfold mbind at 1. rewrite (findByCoordinates_returned _ _ _ _ _ _ Hmiss).
  unfold mbind at 1.
  destruct (fetch_and_store_offline StringToNumber Math_pow nasa_api now _ _
              {| fs := disk_after_read (fs w); log := Consulted :: log w |} Hapi)
    as [err Hrun].
  rewrite Hrun. eexists. split; [reflexivity|]. split; [reflexivity|].
  unfold getAllData. rewrite !readDatabase_run. cbn [fst fs].
  rewrite read_of_after_read. reflexivity.
Qed.

Lemma get_upstream_failure_is_500_witness :
  exists w' : world,
    getEnergyData no_strings parse_toronto pow_by_mul never_answers noon
      "wind" "43.65" "-79.38" (world_with (File (Document [phoenix])))
    = (Return {| status := 500; json := ErrorBody "Internal server error" |}, w')
    /\ fst (getAllData w') = Return [phoenix].
Proof.
  destruct (get_upstream_failure_is_500 no_strings parse_toronto pow_by_mul
              never_answers noon "wind" "43.65" "-79.38" (dec 4365 2) (dec (-7938) 2)
              (world_with (File (Document [phoenix]))))
    as (w' & Hrun & _ & Hall).
  - vm_compute. reflexivity.
  - vm_compute. reflexivity.
  - reflexivity.
  - exists w'. split; [exact Hrun|]. rewrite Hall. reflexivity.
Defined.

Lemma disk_after_read_read_only (d : disk) :
  writable d = false -> disk_after_read d = d.
Proof.
  destruct d as [st rd wr]. cbn. intros ->. destruct st; reflexivity.
Qed.

Lemma disk_after_read_file (d : disk) (text : file_text) :
  stored d = File text -> disk_after_read d = d.
Proof. unfold disk_after_read. intros ->. reflexivity. Qed.

(** A cached answer is sent as the same JSON body whether it is built
    from an entry or from what JSON keeps of that entry. *)
Lemma as_sent_roundtrip (lat lon : jsval) (e : entry) (type : string) :
  as_sent {| status := 200;
             json := EnergyBody
               (formatEnergyResponse (at_coordinates lat lon (JSON_roundtrip e)) type) |}
  = as_sent {| status := 200;
               json := EnergyBody
                 (formatEnergyResponse (at_coordinates lat lon e) type) |}.
Proof.
  unfold as_sent, formatEnergyResponse, at_coordinates.
  cbn [status json JSON_body body_latitude body_longitude body_solar body_wind
       body_timestamp body_parameters latitude longitude solar wind timestamp
       JSON_roundtrip].
  destruct (String.eqb type "solar" || String.eqb type "both"),
    (String.eqb type "wind" || String.eqb type "both");
    cbn [fmap option_fmap option_map]; rewrite ?JSON_result_idem; reflexivity.
Qed.

(** GET twice: once a request has been answered from upstream and
    stored, the same request is answered from the store, without another
    upstream call and without a write.  The two answers are sent as the
    same JSON body; the second is built from the entry as JSON keeps it,
    and is the first one when every number of the entry is finite and
    not -0. *)
Theorem second_get_is_served_from_cache
    (StringToNumber parseFloat : string -> number)
    (Math_pow : number -> number -> number)
    (nasa_api : jsval -> jsval -> option nasa_data) (now : string)
    (type lat lon : string) (latitude longitude : number) (w : world) (raw : nasa_data)
    (Hvalid : validateCoordinates parseFloat lat lon = Valid latitude longitude)
    (Hmiss : fst (findByCoordinates StringToNumber (VNumber latitude) (VNumber longitude)
                    None w) = Return None)
    (Hapi : nasa_api (VNumber latitude) (VNumber longitude) = Some raw)
    (Hraw : complete_raw raw = true)
    (Hread : readable (fs w) = true)
    (Hwrite : writable (fs w) = true)
    (Htype : route_type type = true) :
  exists (resp1 resp2 : response) (w1 w2 : world),
    getEnergyData StringToNumber parseFloat Math_pow nasa_api now type lat lon w
    = (Return resp1, w1)
    /\ getEnergyData StringToNumber parseFloat Math_pow nasa_api now type lat lon w1
       = (Return resp2, w2)
    /\ as_sent resp2 = as_sent resp1
    /\ (plain_entry (fresh_entry Math_pow now (VNumber latitude) (VNumber longitude) raw)
        -> resp2 = resp1)
    /\ fs w2 = fs w1
    /\ log w2 = Consulted :: log w1.
Proof.
  destruct (findByCoordinates_missed _ _ _ _ _ Hmiss) as [Hentries Hfind].
  change (default (dec 1 2) None) with (dec 1 2) in Hfind.
  pose (e := fresh_entry Math_pow now (VNumber latitude) (VNumber longitude) raw).
  assert (Hself : within StringToNumber (dec 1 2) (VNumber latitude) (VNumber longitude)
                    (JSON_roundtrip e) = true).
  { destruct (validate_valid_in_range _ _ _ _ _ Hvalid) as (_ & _ & Hrange).
    destruct (in_range_finite _ _ Hrange) as [Hlat Hlon].
    change (near StringToNumber (JSON_roundtrip e) e = true).
    rewrite (near_JSON_l StringToNumber e e Hlat Hlon).
    apply near_self. split; assumption. }
  eexists _, _, _, _. split.
  { apply (getEnergyData_miss_run StringToNumber parseFloat Math_pow nasa_api now
             type lat lon latitude longitude w raw); assumption. }
  split.
  { apply (getEnergyData_hit_run StringToNumber parseFloat Math_pow nasa_api now
             type lat lon latitude longitude _ (JSON_roundtrip e) Hvalid);
      [|exact Htype].
    rewrite findByCoordinates_run by apply reads_entries_written.
    cbn [fst fs]. rewrite Hread, database_of_written, fmap_app, database_of_read.
    change (default (dec 1 2) None) with (dec 1 2).
    rewrite find_app, Hfind. cbn [fmap list_fmap List.find]. fold e.
    rewrite Hself. reflexivity. }
  fold e. split.
  { exact (as_sent_roundtrip (VNumber latitude) (VNumber longitude) e type). }
  split.
  { intros Hplain. rewrite (plain_JSON_roundtrip _ Hplain). reflexivity. }
  split; reflexivity.
Qed.

Lemma second_get_is_served_from_cache_witness :
  exists (resp1 resp2 : response) (w1 w2 : world),
    getEnergyData no_strings parse_toronto pow_by_mul always_answers noon
      "both" "43.65" "-79.38" (world_with NoFile) = (Return resp1, w1)
    /\ getEnergyData no_strings parse_toronto pow_by_mul always_answers noon
         "both" "43.65" "-79.38" w1 = (Return resp2, w2)
    /\ as_sent resp2 = as_sent resp1
    /\ fs w2 = fs w1
    /\ log w2 = Consulted :: log w1.
Proof.
  destruct (second_get_is_served_from_cache no_strings parse_toronto pow_by_mul
              always_answers noon "both" "43.65" "-79.38" (dec 4365 2) (dec (-7938) 2)
              (world_with NoFile) sample_raw)
    as (resp1 & resp2 & w1 & w2 & H1 & H2 & Hsent & _ & Hfs & Hlog);
    [..| exists resp1, resp2, w1, w2; repeat split; assumption].
  - vm_compute. reflexivity.
  - vm_compute. reflexivity.
  - reflexivity.
  - reflexivity.
  - reflexivity.
  - reflexivity.
  - reflexivity.
Defined.

(** The GET routes validate before anything else: a pair inside the
    closed ranges is accepted as parsed, and any other pair is answered
    400 with the validation message while the world is left untouched. *)
Theorem get_routes_validate_coordinates
    (StringToNumber parseFloat : string -> number)
    (Math_pow : number -> number -> number)
    (nasa_api : jsval -> jsval -> option nasa_data) (now : string)
    (type lat lon : string) (w : world) :
  if in_range (parseFloat lat) (parseFloat lon) then
    validateCoordinates parseFloat lat lon = Valid (parseFloat lat) (parseFloat lon)
  else
    exists error : string,
      validateCoordinates parseFloat lat lon = Invalid error
      /\ getEnergyData StringToNumber parseFloat Math_pow nasa_api now type lat lon w
         = (Return {| status := 400; json := ErrorBody error |}, w).
Proof.
  destruct (in_range (parseFloat lat) (parseFloat lon)) eqn:Hrange.
  - apply validateCoordinates_accepts_iff_in_range. exact Hrange.
  - destruct (validateCoordinates parseFloat lat lon) as [error|la lo] eqn:Hv.
    + exists error. split; [reflexivity|].
      apply getEnergyData_rejects_invalid. exact Hv.
    + destruct (validate_valid_in_range _ _ _ _ _ Hv) as (-> & -> & H).
      rewrite H in Hrange. discriminate Hrange.
Qed.

(** GET, cache miss while the store cannot be written: the upstream
    service is called, the computed entry is lost, the answer is 500 and
    the disk is as before. *)
Theorem get_write_failure_is_500
    (StringToNumber parseFloat : string -> number)
    (Math_pow : number -> number -> number)
    (nasa_api : jsval -> jsval -> option nasa_data) (now : string)
    (type lat lon : string) (latitude longitude : number) (w : world) (raw : nasa_data)
    (Hvalid : validateCoordinates parseFloat lat lon = Valid latitude longitude)
    (Hmiss : fst (findByCoordinates StringToNumber (VNumber latitude) (VNumber longitude)
                    None w) = Return None)
    (Hapi : nasa_api (VNumber latitude) (VNumber longitude) = Some raw)
    (Hraw : complete_raw raw = true)
    (Hwrite : writable (fs w) = false) :
  exists w' : world,
    getEnergyData StringToNumber parseFloat Math_pow nasa_api now type lat lon w
    = (Return {| status := 500; json := ErrorBody "Internal server error" |}, w')
    /\ fs w' = fs w
    /\ In (Fetched (VNumber latitude) (VNumber longitude)) (log w').
Proof.
  destruct (findByCoordinates_missed _ _ _ _ _ Hmiss) as [Hentries _].
  unfold complete_raw in Hraw. apply andb_true_iff in Hraw as [Hs Hwd].
  destruct (nasa_solar raw) as [| |sp] eqn:Hsolar; try discriminate Hs.
  destruct (nasa_wind raw) as [| |wp] eqn:Hwind; try discriminate Hwd.
  unfold getEnergyData, try_catch. rewrite Hvalid.
  unfold mbind at 1. rewrite (findByCoordinates_returned _ _ _ _ _ _ Hmiss).
  rewrite (disk_after_read_read_only _ Hwrite).
  unfold mbind at 1, fetch_and_store, fetchNASAData, mbind, emit.
  rewrite Hapi. unfold ret at 1, lift. rewrite Hsolar, Hwind.
  cbn [calculateSolarEnergy calculateWindEnergy Object_entries bind].
  match goal with
  | |- context [saveEnergyData StringToNumber ?e ?w0] =>
      destruct (saveEnergyData_read_only_run StringToNumber e w0 Hwrite Hentries)
        as [err Hrun];
      rewrite Hrun
  end.
  eexists. split; [reflexivity|]. split; [reflexivity|].
  cbn [log]. right. right. left. reflexivity.
Qed.

Lemma get_write_failure_is_500_witness :
  exists w' : world,
    getEnergyData no_strings parse_toronto pow_by_mul always_answers noon
      "solar" "43.65" "-79.38" (read_only_world [phoenix])
    = (Return {| status := 500; json := ErrorBody "Internal server error" |}, w')
    /\ fs w' = fs (read_only_world [phoenix]).
Proof.
  destruct (get_write_failure_is_500 no_strings parse_toronto pow_by_mul
              always_answers noon "solar" "43.65" "-79.38" (dec 4365 2) (dec (-7938) 2)
              (read_only_world [phoenix]) sample_raw)
    as (w' & Hrun & Hfs & _).
  - vm_compute. reflexivity.
  - vm_compute. reflexivity.
  - reflexivity.
  - reflexivity.
  - reflexivity.
  - exists w'. split; [exact Hrun | exact Hfs].
Defined.

(** POST /api/calculate with the default parameters, cache hit with raw
    data: the answer is the cached default-parameter result, without a
    [parameters] field, and the handler only read the store. *)
Theorem calculate_default_parameters_on_hit
    (StringToNumber : string -> number) (Math_pow : number -> number -> number)
    (nasa_api : jsval -> jsval -> option nasa_data) (now : string)
    (req : calculate_body) (w : world) (e : entry) (raw : nasa_data)
    (Hlat : ToBoolean (req_latitude req) = true)
    (Hlon : ToBoolean (req_longitude req) = true)
    (Hhit : fst (findByCoordinates StringToNumber (req_latitude req) (req_longitude req)
                   None w) = Return (Some e))
    (Hraw : rawData e = Some raw)
    (Hcomplete : complete_raw raw = true)
    (Hdefault : custom_parameters req = false) :
  calculateEnergy StringToNumber Math_pow nasa_api now req w
  = (Return (default_response req e), {| fs := fs w; log := Consulted :: log w |}).
Proof.
  pose proof (hit_keeps_disk _ _ _ _ _ _ Hhit) as Hdisk.
  unfold complete_raw in Hcomplete. apply andb_true_iff in Hcomplete as [Hs Hwd].
  unfold calculateEnergy, try_catch. cbv zeta. rewrite Hlat, Hlon. cbn [negb orb].
  unfold mbind. rewrite (findByCoordinates_returned _ _ _ _ _ _ Hhit).
  unfold ret at 1. rewrite Hraw. unfold ret at 1.
  rewrite Hraw, Hs, Hwd. cbn [negb orb].
  unfold custom_parameters in Hdefault. rewrite Hdefault, Hdisk. reflexivity.
Qed.

Lemma calculate_default_parameters_on_hit_witness :
  calculateEnergy no_strings pow_by_mul never_answers noon
    (body_of (VNumber (dec 4365 2)) (VNumber (dec (-7938) 2))
       VUndefined (VNumber (dec 2 1)) VUndefined)
    (world_with (File (Document [toronto])))
  = (Return (default_response
               (body_of (VNumber (dec 4365 2)) (VNumber (dec (-7938) 2))
                  VUndefined (VNumber (dec 2 1)) VUndefined) toronto),
     {| fs := fs (world_with (File (Document [toronto]))); log := [Consulted] |}).
Proof.
  apply (calculate_default_parameters_on_hit no_strings pow_by_mul never_answers noon
           _ (world_with (File (Document [toronto]))) toronto sample_raw).
  - reflexivity.
  - reflexivity.
  - vm_compute. reflexivity.
  - reflexivity.
  - reflexivity.
  - vm_compute. reflexivity.
Defined.

(** POST /api/calculate when the store, read as an array of entries, has
    no usable entry (none, or one without raw data) and the upstream
    service answers: whatever the
    parameters of the request, the entry appended to the store is the one
    computed with the default parameters; the answer is the custom
    calculation when a parameter differs from its default and the stored
    default result otherwise. *)
Theorem calculate_miss_stores_default_results
    (StringToNumber : string -> number) (Math_pow : number -> number -> number)
    (nasa_api : jsval -> jsval -> option nasa_data) (now : string)
    (req : calculate_body) (w : world) (raw : nasa_data)
    (Hlat : ToBoolean (req_latitude req) = true)
    (Hlon : ToBoolean (req_longitude req) = true)
    (Hentries : reads_entries (fs w) = true)
    (Hmiss : needs_fetch
               (fst (findByCoordinates StringToNumber (req_latitude req)
                       (req_longitude req) None w)) = true)
    (Hapi : nasa_api (req_latitude req) (req_longitude req) = Some raw)
    (Hcomplete : complete_raw raw = true)
    (Hwrite : writable (fs w) = true) :
  let e := fresh_entry Math_pow now (req_latitude req) (req_longitude req) raw in
  exists (w' : world) (kept : list entry),
    calculateEnergy StringToNumber Math_pow nasa_api now req w
    = (Return
         (if custom_parameters req then
            custom_response req
              (returned
                 (calculateSolarEnergy (nasa_solar raw)
                    (Some (ToNumber StringToNumber
                             (or_default (VNumber (of_Z 1)) (req_area req))))
                    (Some (ToNumber StringToNumber
                             (or_default (VNumber (dec 2 1)) (req_solarEfficiency req))))))
              (returned
                 (calculateWindEnergy Math_pow (nasa_wind raw)
                    (Some (ToNumber StringToNumber
                             (or_default (VNumber (of_Z 1)) (req_area req))))
                    (Some (ToNumber StringToNumber
                             (or_default (VNumber (dec 4 1)) (req_windEfficiency req))))))
          else default_response req e), w')
    /\ stored (fs w') = File (Document (kept ++ [e]))
    /\ In (Fetched (req_latitude req) (req_longitude req)) (log w').
Proof.
  intros e.
  assert (Hw' : writable (fs {| fs := disk_after_read (fs w);
                                log := Consulted :: log w |}) = true).
  { cbn [fs]. revert Hwrite. destruct (fs w) as [[| |text] rd wr]; cbn;
      intros ->; reflexivity. }
  assert (Hentries' : reads_entries (fs {| fs := disk_after_read (fs w);
                                           log := Consulted :: log w |}) = true)
    by (cbn [fs]; rewrite reads_entries_after_read; exact Hentries).
  pose proof (fetch_and_store_run StringToNumber Math_pow nasa_api now _ _ raw _
                Hapi Hcomplete Hw' Hentries') as Hstore.
  cbv zeta in Hstore. fold e in Hstore.
  rewrite (findByCoordinates_run _ _ _ _ _ Hentries) in Hmiss.
  cbn [fst needs_fetch] in Hmiss.
  change (default (dec 1 2) None) with (dec 1 2) in Hmiss.
  unfold complete_raw in Hcomplete. apply andb_true_iff in Hcomplete as [Hs Hwd].
  destruct (nasa_solar raw) as [| |sp] eqn:Hsolar; try discriminate Hs.
  destruct (nasa_wind raw) as [| |wp] eqn:Hwind; try discriminate Hwd.
  unfold calculateEnergy, try_catch. cbv zeta. rewrite Hlat, Hlon. cbn [negb orb].
  unfold mbind at 1. rewrite (findByCoordinates_run _ _ _ _ _ Hentries).
  change (default (dec 1 2) None) with (dec 1 2).
  unfold mbind at 1.
  assert (Hfetch :
    (match List.find (within StringToNumber (dec 1 2) (req_latitude req)
                        (req_longitude req)) (database_of (fs w)) with
     | Some e0 => match rawData e0 with
                  | Some _ => ret e0
                  | None => fetch_and_store StringToNumber Math_pow nasa_api now
                              (req_latitude req) (req_longitude req)
                  end
     | None => fetch_and_store StringToNumber Math_pow nasa_api now
                 (req_latitude req) (req_longitude req)
     end) = fetch_and_store StringToNumber Math_pow nasa_api now
              (req_latitude req) (req_longitude req)).
  { destruct (List.find _ _) as [e0|]; [|reflexivity].
    destruct (rawData e0); [discriminate Hmiss | reflexivity]. }
  rewrite Hfetch, Hstore.
  change (rawData e) with (Some raw). cbv beta iota.
  rewrite Hsolar, Hwind. cbn [has_raw negb orb].
  fold (custom_parameters req).
  destruct (custom_parameters req);
    eexists _, _; (split; [reflexivity|]); split;
      try reflexivity; cbn [log]; right; right; left; reflexivity.
Qed.

Lemma calculate_miss_stores_default_results_witness :
  exists (w' : world) (resp : response),
    calculateEnergy no_strings pow_by_mul always_answers noon
      (body_of (VNumber (dec 4365 2)) (VNumber (dec (-7938) 2))
         (VNumber (dec 25 0)) VUndefined VUndefined)
      (world_with (File (Document [phoenix]))) = (Return resp, w')
    /\ stored (fs w')
       = File (Document [phoenix;
                         fresh_entry pow_by_mul noon (VNumber (dec 4365 2))
                           (VNumber (dec (-7938) 2)) sample_raw]).
Proof.
  destruct (calculate_miss_stores_default_results no_strings pow_by_mul always_answers
              noon
              (body_of (VNumber (dec 4365 2)) (VNumber (dec (-7938) 2))
                 (VNumber (dec 25 0)) VUndefined VUndefined)
              (world_with (File (Document [phoenix]))) sample_raw)
    as (w' & kept & Hrun & Hstored & _).
  - reflexivity.
  - reflexivity.
  - reflexivity.
  - vm_compute. reflexivity.
  - reflexivity.
  - reflexivity.
  - reflexivity.
  - exists w'. eexists. split; [exact Hrun|].
    assert (Hw : stored (fs w')
                 = stored (fs (snd (calculateEnergy no_strings pow_by_mul always_answers
                                      noon
                                      (body_of (VNumber (dec 4365 2))
                                         (VNumber (dec (-7938) 2))
                                         (VNumber (dec 25 0)) VUndefined VUndefined)
                                      (world_with (File (Document [phoenix]))))))).
    { rewrite Hrun. reflexivity. }
    rewrite Hw. vm_compute. reflexivity.
Defined.

(** * The upstream fetcher *)

Lemma fetch_body_outcome
    (axios_get : string -> NasaService.query -> completion NasaService.http_response)
    (latitude longitude : jsval) :
  match NasaService.fetchNASAData axios_get latitude longitude with
  | Return _ => True
  | Throw err => err = Error "Failed to fetch data from NASA POWER API"
  end.
Proof.
  unfold NasaService.fetchNASAData.
  destruct (NasaService.fetch_body axios_get latitude longitude); [exact I | reflexivity].
Qed.

(** [fetchNASAData] fails in one way only: a transport error, a status
    other than 200 and an answer lacking [properties], [parameter],
    [geometry] or [coordinates] all surface as the error 'Failed to
    fetch data from NASA POWER API'; and when it returns, the series are
    the two requested parameters and the latitude is the second
    coordinate of the answer, the longitude the first. *)
Theorem fetch_fails_with_one_error
    (axios_get : string -> NasaService.query -> completion NasaService.http_response)
    (latitude longitude : jsval) :
  match NasaService.fetchNASAData axios_get latitude longitude with
  | Return data =>
      exists url q resp doc param coordinates,
        axios_get url q = Return resp
        /\ NasaService.q_latitude q = latitude
        /\ NasaService.q_longitude q = longitude
        /\ NasaService.http_status resp = 200%nat
        /\ NasaService.http_data resp = Some doc
        /\ NasaService.properties doc = Some (Some param)
        /\ NasaService.geometry doc = Some (Some coordinates)
        /\ nasa_solar data = NasaService.ALLSKY_SFC_SW_DWN param
        /\ nasa_wind data = NasaService.WS50M param
        /\ meta_latitude (metadata data) = NasaService.element coordinates 1
        /\ meta_longitude (metadata data) = NasaService.element coordinates 0
  | Throw err => err = Error "Failed to fetch data from NASA POWER API"
  end.
Proof.
  unfold NasaService.fetchNASAData, NasaService.fetch_body. cbv zeta.
  match goal with |- context [axios_get ?u ?q] => set (url := u); set (query := q) end.
  destruct (axios_get url query) as [resp|err] eqn:Hget; cbn [bind]; [|reflexivity].
  destruct (NasaService.http_status resp =? 200)%nat eqn:Hstatus;
    cbn [negb]; [|reflexivity].
  apply Nat.eqb_eq in Hstatus.
  destruct (NasaService.http_data resp) as [doc|] eqn:Hdata;
    cbn [NasaService.property_of bind]; [|reflexivity].
  destruct (NasaService.properties doc) as [[param|]|] eqn:Hprops;
    cbn [NasaService.property_of bind]; try reflexivity.
  destruct (NasaService.geometry doc) as [[coordinates|]|] eqn:Hgeom;
    cbn [NasaService.property_of bind]; try reflexivity.
  exists url, query, resp, doc, param, coordinates.
  repeat split; assumption.
Qed.

(** A 2xx answer other than 200 is a failure, although axios accepts
    it. *)
Example status_204_is_a_failure :
  NasaService.fetchNASAData answers_204 (VNumber (dec 4365 2)) (VNumber (dec (-7938) 2))
  = Throw (Error "Failed to fetch data from NASA POWER API").
Proof. reflexivity. Qed.

Example toronto_document_is_fetched :
  exists data,
    NasaService.fetchNASAData (answers_200 toronto_document)
      (VNumber (dec 4365 2)) (VNumber (dec (-7938) 2)) = Return data
    /\ meta_latitude (metadata data) = VNumber (dec 4365 2)
    /\ meta_longitude (metadata data) = VNumber (dec (-7938) 2).
Proof. eexists. repeat split. Qed.

(** The handlers' view of the fetcher, an answer or none, loses nothing:
    with [as_api] for the service, their [fetchNASAData] is the fetcher
    above. *)
Lemma fetchNASAData_as_api
    (axios_get : string -> NasaService.query -> completion NasaService.http_response)
    (latitude longitude : jsval) (w : world) :
  fetchNASAData (NasaService.as_api axios_get) latitude longitude w
  = (NasaService.fetchNASAData axios_get latitude longitude,
     {| fs := fs w; log := Fetched latitude longitude :: log w |}).
Proof.
  unfold fetchNASAData, NasaService.as_api, mbind, emit.
  pose proof (fetch_body_outcome axios_get latitude longitude) as H.
  destruct (NasaService.fetchNASAData axios_get latitude longitude) as [data|err];
    [reflexivity|]. rewrite H. reflexivity.
Qed.

(** * The client *)

Section ClientFacts.
Variable payload : Type.
Variable apiClient_get : string -> ApiService.outcome payload.
Variable apiClient_post : string -> calculate_body -> ApiService.outcome payload.
Variable ToString : jsval -> string.


End ClientFacts.


Example unreachable_server_message :
  ApiService.fetchData unit no_server no_server_post (fun _ => "0") "energy"
    (VNumber (dec 4365 2)) (VNumber (dec (-7938) 2)) None
  = ApiService.Rejected
      (ApiService.Plain
         "Failed to fetch data. Unable to connect to the server. Please check if the backend is running.").
Proof. reflexivity. Qed.

Example server_error_message :
  ApiService.errorMessage
    (ApiService.WithResponse 400 (Some "Latitude must be between -90 and 90") "Bad Request")
  = "Failed to fetch data. Server responded with 400: Latitude must be between -90 and 90".
Proof. reflexivity. Qed.


Section ChartFacts.

Lemma or_zero_not_nan (v : option number) :
  isNaN (BarGraphContainer.or_zero v) = false.
Proof.
  unfold BarGraphContainer.or_zero. destruct v as [x|]; [|reflexivity].
  destruct (truthy x) eqn:Ht; [|reflexivity].
  destruct x; try reflexivity; discriminate Ht.
Qed.

Lemma indexOf_from_lookup (years : list string) :
  forall (i : nat) (year : string) (k : Z),
    NoDup years -> List.nth_error years i = Some year ->
    BarGraphContainer.indexOf_from years year k = (k + Z.of_nat i)%Z.
Proof.
  induction years as [|y rest IH]; intros i year k Hnd Hi.
  - destruct i; discriminate Hi.
  - apply NoDup_cons in Hnd as [Hy Hnd]. cbn [BarGraphContainer.indexOf_from].
    destruct i as [|i]; cbn [List.nth_error] in Hi.
    + injection Hi as ->. rewrite String.eqb_refl. lia.
    + destruct (String.eqb y year) eqn:Heq.
      * apply String.eqb_eq in Heq. subst y. exfalso. apply Hy.
        apply list_elem_of_In. apply (List.nth_error_In _ _ Hi).
      * rewrite (IH i year (k + 1)%Z Hnd Hi). lia.
Qed.

Lemma year_at_nat (years : list string) (i : nat) :
  BarGraphContainer.year_at years (Z.of_nat i) = List.nth_error years i.
Proof.
  unfold BarGraphContainer.year_at.
  destruct (Z.of_nat i <? 0)%Z eqn:H; [apply Z.ltb_lt in H; lia|].
  rewrite Nat2Z.id. reflexivity.
Qed.

End ChartFacts.

(** Yearly view: for a series and year that are present the chart gets
    twelve bars named Jan to Dec in calendar order, none of them NaN (a
    missing, zero or NaN month is drawn as 0); otherwise it gets no bar. *)
Theorem yearly_view_has_twelve_bars
    (energy : BarGraphContainer.energyData) (dataType currentYear : string) :
  let bars := BarGraphContainer.processYearlyData energy dataType currentYear in
  match (if String.eqb dataType "solar" then BarGraphContainer.data_solar energy
         else BarGraphContainer.data_wind energy) with
  | Some data =>
      match data !! currentYear with
      | Some yearData =>
          List.map fst bars = BarGraphContainer.monthNames
          /\ Forall (fun b : BarGraphContainer.bar => isNaN (snd b) = false) bars
          /\ List.map snd bars
             = List.map (fun m => BarGraphContainer.or_zero (yearData !! m))
                 BarGraphContainer.months
      | None => bars = []
      end
  | None => bars = []
  end.
Proof.
  intros bars. subst bars. unfold BarGraphContainer.processYearlyData.
  destruct (if String.eqb dataType "solar" then _ else _) as [data|]; [|reflexivity].
  destruct (data !! currentYear) as [yearData|]; [|reflexivity].
  split; [reflexivity|]. split; [|reflexivity].
  cbn [BarGraphContainer.months BarGraphContainer.monthNames List.combine List.map].
  repeat constructor; apply or_zero_not_nan.
Qed.

(** Year navigation: from a year of the list, next moves to the
    following year and previous comes back; at the last year next does
    nothing, at the first year previous does nothing. *)
Theorem year_navigation_round_trip
    (availableYears : list string) (i : nat) (year : string)
    (Hkeys : NoDup availableYears)
    (Hyear : List.nth_error availableYears i = Some year) :
  (forall following,
     List.nth_error availableYears (S i) = Some following ->
     BarGraphContainer.handleNextYear availableYears (Some year) = Some following
     /\ BarGraphContainer.handlePreviousYear availableYears (Some following) = Some year)
  /\ (S i = List.length availableYears ->
      BarGraphContainer.handleNextYear availableYears (Some year) = Some year)
  /\ (i = 0%nat ->
      BarGraphContainer.handlePreviousYear availableYears (Some year) = Some year).
Proof.
  assert (Hidx : BarGraphContainer.indexOf availableYears (Some year) = Z.of_nat i)
    by (cbn; rewrite (indexOf_from_lookup _ _ _ _ Hkeys Hyear); lia).
  split; [|split].
  - intros following Hnext.
    assert (Hlen : (S i < List.length availableYears)%nat)
      by (apply List.nth_error_Some; rewrite Hnext; discriminate).
    assert (Hidx' : BarGraphContainer.indexOf availableYears (Some following)
                    = Z.of_nat (S i))
      by (cbn; rewrite (indexOf_from_lookup _ _ _ _ Hkeys Hnext); lia).
    split.
    + unfold BarGraphContainer.handleNextYear. rewrite Hidx.
      destruct (Z.of_nat i <? Z.of_nat (List.length availableYears) - 1)%Z eqn:H;
        [|apply Z.ltb_ge in H; lia].
      replace (Z.of_nat i + 1)%Z with (Z.of_nat (S i)) by lia.
      rewrite year_at_nat. exact Hnext.
    + unfold BarGraphContainer.handlePreviousYear. rewrite Hidx'.
      destruct (0 <? Z.of_nat (S i))%Z eqn:H; [|apply Z.ltb_ge in H; lia].
      replace (Z.of_nat (S i) - 1)%Z with (Z.of_nat i) by lia.
      rewrite year_at_nat. exact Hyear.
  - intros Hlast. unfold BarGraphContainer.handleNextYear. rewrite Hidx.
    destruct (Z.of_nat i <? Z.of_nat (List.length availableYears) - 1)%Z eqn:H;
      [apply Z.ltb_lt in H; lia | reflexivity].
  - intros ->. unfold BarGraphContainer.handlePreviousYear. rewrite Hidx. reflexivity.
Qed.

Lemma year_navigation_round_trip_witness :
  BarGraphContainer.handleNextYear years_2012_2014 (Some "2013") = Some "2014"
  /\ BarGraphContainer.handlePreviousYear years_2012_2014 (Some "2014") = Some "2013".
Proof.
  apply (proj1 (year_navigation_round_trip years_2012_2014 1 "2013"
                  ltac:(apply (bool_decide_unpack _); vm_compute; exact I) eq_refl)).
  reflexivity.
Defined.

(** * The store invariant across requests *)

Section InvariantKept.
Variable StringToNumber : string -> number.













Section WithService.
Variable parseFloat : string -> number.
Variable Math_pow : number -> number -> number.
Variable nasa_api : jsval -> jsval -> option nasa_data.
Variable now : string.





End WithService.
End InvariantKept.


(** A calculate request whose latitude is Infinity does not keep it, if
    the upstream service answers: the entry is stored with latitude
    [null], which is read as 0 and so lies within the tolerance of an
    entry near the equator. *)
Example infinite_latitude_breaks_store_invariant :
  let req := body_of (VNumber (S754_infinity false)) (VNumber (dec 5 3))
               VUndefined VUndefined VUndefined in
  let w := world_with (File (Document [near_equator])) in
  world_ok no_strings w
  /\ exists (resp : response) (w' : world),
       calculateEnergy no_strings pow_by_mul always_answers noon req w = (Return resp, w')
       /\ status resp = 200%nat
       /\ ~ world_ok no_strings w'.
Proof.
  intros req w. split.
  - unfold world_ok. cbn. apply store_invariant_cons.
    split; [intros b []|apply store_invariant_nil].
  - set (r := calculateEnergy no_strings pow_by_mul always_answers noon req w).
    exists (match fst r with Return resp => resp | Throw _ => internal_server_error end),
      (snd r).
    split; [vm_compute; reflexivity|]. split; [vm_compute; reflexivity|].
    unfold world_ok.
    assert (Hstored : stored (fs (snd r))
                      = File (Document
                                [near_equator;
                                 fresh_entry pow_by_mul noon (VNumber (S754_infinity false))
                                   (VNumber (dec 5 3)) sample_raw]))
      by (vm_compute; reflexivity).
    rewrite Hstored. intros H.
    specialize (H 0%nat 1%nat _ _ ltac:(discriminate) eq_refl eq_refl).
    vm_compute in H. discriminate H.
Qed.

